(** * DZAIR Sales & Profit Manager: the ledger of [main.py], embedded and verified

    The development follows [src/main.py]:
    - the three profit formulas ([tot_livraison], [p_fayda], [fayda_safia]);
    - the invoice sequencer ([generate_invoice_no]);
    - the methods of [App] that read or write the ledger
      ([refresh_sales], [add_sale], [refresh_dashboard]).

    Modelling choices.
    - SQLite [REAL] columns and Python floats are exact rationals ([Q]):
      binary64 rounding, infinities and NaN are outside the model.
      SQLite [INTEGER] columns and Python ints are [Z].
    - Text is [string], read as a sequence of code points below 256.
    - A table is the list of its rows; the store is threaded explicitly
      through every method, and a method returns the new application state
      together with the dialogs it showed (or the exception it let escape).
    - Lines 255-291 of [main.py] carry backslash-escaped quotes; they are read
      as the string literals they denote (and the stray quote of line 242
      and the extra parenthesis of line 268 as absent). *)

From Stdlib Require Import ZArith QArith Ascii List Lia Bool Sorting.Sorted Sorting.Permutation.
From stdpp Require Import gmap strings.

Local Open Scope Z_scope.

(** ** Calculations (main.py, lines 33-40) *)

Definition tot_livraison (weight delivery_price : Q) : Q :=
  (weight * 50) + delivery_price.

Definition p_fayda (selling_price tot_livraison purchase_price : Q) : Q :=
  (selling_price - tot_livraison) - purchase_price.

Definition fayda_safia (pf : Q) : Q :=
  pf - 500.

(** ** Python text primitives used by the program *)

Module Py.

(** Results of code that may raise. *)
Inductive exn := ValueError | OverflowError | IntegrityError.

Inductive res (A : Type) :=
| Ret (a : A)
| Raise (e : exn).
Arguments Ret {A} a.
Arguments Raise {A} e.

(** [x or d] on a nullable numeric column: [None] and zero are falsy. *)
Definition or_Q (x : option Q) (d : Q) : Q :=
  match x with
  | Some v => if Qeq_bool v 0 then d else v
  | None => d
  end.

(** [s or d] on text: the empty string is falsy. *)
Definition or_str (s d : string) : string :=
  match s with
  | EmptyString => d
  | _ => s
  end.

(** The decimal digits are the code points 48 to 57. *)
Definition digit_of (c : ascii) : option Z :=
  let n := N_of_ascii c in
  if ((48 <=? n) && (n <=? 57))%N then Some (Z.of_N n - 48) else None.

Definition digit_char (d : Z) : ascii := ascii_of_N (Z.to_N (48 + d)).

(** [str.isspace] on code points below 256. *)
Definition is_space (c : ascii) : bool :=
  let n := N_of_ascii c in
  ((9 <=? n) && (n <=? 13) || (28 <=? n) && (n <=? 32)
   || (n =? 133) || (n =? 160))%N.

Fixpoint lstrip (s : string) : string :=
  match s with
  | String c r => if is_space c then lstrip r else s
  | EmptyString => EmptyString
  end.

Fixpoint rstrip (s : string) : string :=
  match s with
  | String c r =>
      match rstrip r with
      | EmptyString => if is_space c then EmptyString else String c EmptyString
      | r' => String c r'
      end
  | EmptyString => EmptyString
  end.

(** [s.strip()] *)
Definition strip (s : string) : string := rstrip (lstrip s).

(** A run [digit (["_"] digit)*] whose first digit has been read:
    value so far, digits read so far, and the unread rest. *)
Fixpoint digitpart_go (acc : Z) (n : nat) (s : string) : Z * nat * string :=
  match s with
  | String c r =>
      match digit_of c with
      | Some d => digitpart_go (10 * acc + d) (S n) r
      | None =>
          if Ascii.eqb c "_" then
            match r with
            | String c' r' =>
                match digit_of c' with
                | Some d => digitpart_go (10 * acc + d) (S n) r'
                | None => (acc, n, s)
                end
            | EmptyString => (acc, n, s)
            end
          else (acc, n, s)
      end
  | EmptyString => (acc, n, s)
  end.

Definition digitpart (s : string) : option (Z * nat * string) :=
  match s with
  | String c r =>
      match digit_of c with
      | Some d => Some (digitpart_go d 1 r)
      | None => None
      end
  | EmptyString => None
  end.

Definition all_digits (s : string) : option Z :=
  match digitpart s with
  | Some (v, _, EmptyString) => Some v
  | _ => None
  end.

(** [int(s)] for text [s], base 10: surrounding white space, an optional
    sign, decimal digits with single underscores between them.  [None] is
    the [ValueError].  The cap that recent Python versions put on the
    number of digits (4300) is not modelled. *)
Definition int (s : string) : option Z :=
  match strip s with
  | String "+" r => all_digits r
  | String "-" r => Z.opp <$> all_digits r
  | r => all_digits r
  end.

(** [float(s)] on finite decimal literals:
    [[sign] (digitpart ["." [digitpart]] | "." digitpart) [("e"|"E") [sign] digitpart]].
    The value is the exact rational the literal denotes.  The spellings of
    infinity and NaN, which Python also accepts, have no rational value and
    are not covered. *)
Definition sign_of (s : string) : bool * string :=
  match s with
  | String "+" r => (false, r)
  | String "-" r => (true, r)
  | _ => (false, s)
  end.

Definition mantissa (s : string) : option (Z * nat * string) :=
  match digitpart s with
  | Some (i, _, String "." r) =>
      match digitpart r with
      | Some (f, k, r') => Some (i * 10 ^ Z.of_nat k + f, k, r')
      | None => Some (i, O, r)
      end
  | Some (i, _, r) => Some (i, O, r)
  | None =>
      match s with
      | String "." r =>
          match digitpart r with
          | Some (f, k, r') => Some (f, k, r')
          | None => None
          end
      | _ => None
      end
  end.

Definition exponent (s : string) : option Z :=
  match s with
  | EmptyString => Some 0
  | String c r =>
      if Ascii.eqb c "e" || Ascii.eqb c "E" then
        let '(neg, r') := sign_of r in
        (fun e => if neg then - e else e) <$> all_digits r'
      else None
  end.

Definition float (s : string) : option Q :=
  let '(neg, t) := sign_of (strip s) in
  match mantissa t with
  | Some (m, k, r) =>
      match exponent r with
      | Some e =>
          let v := (inject_Z m * Qpower 10 (e - Z.of_nat k))%Q in
          Some (if neg then (- v)%Q else v)
      | None => None
      end
  | None => None
  end.

(** [str(n)] for an int: decimal digits, most significant first. *)
Fixpoint digits_lsd (fuel : nat) (n : Z) : list Z :=
  match fuel with
  | O => []
  | S fuel' =>
      if n <? 10 then [n] else (n mod 10) :: digits_lsd fuel' (n / 10)
  end.

Fixpoint string_of_digits (ds : list Z) : string :=
  match ds with
  | [] => EmptyString
  | d :: ds' => String (digit_char d) (string_of_digits ds')
  end.

Definition str_nonneg (n : Z) : string :=
  string_of_digits (rev (digits_lsd (S (Z.to_nat (Z.log2 n))) n)).

Definition str (n : Z) : string :=
  if n <? 0 then String "-" (str_nonneg (- n)) else str_nonneg n.

(** [format(n, "03d")]: the sign, then zeros up to a total width of 3. *)
Fixpoint zeros (k : nat) : string :=
  match k with
  | O => EmptyString
  | S k' => String "0" (zeros k')
  end.

Definition format_03d (n : Z) : string :=
  let body := str_nonneg (Z.abs n) in
  let sign := if n <? 0 then String "-" EmptyString else EmptyString in
  sign +:+ zeros (3 - String.length sign - String.length body) +:+ body.

(** [s.split('-')[-1]]: the text after the last hyphen. *)
Fixpoint last_segment_go (cur : string) (s : string) : string :=
  match s with
  | String c r =>
      if Ascii.eqb c "-" then last_segment_go r r else last_segment_go cur r
  | EmptyString => cur
  end.

Definition last_segment (s : string) : string := last_segment_go s s.

(** ** [datetime.fromisoformat] on the calendar-date form [YYYY-MM-DD]

    This is the form the program writes ([strftime("%Y-%m-%d")]) and asks
    for in its dialogs; the date-and-time forms that [fromisoformat] reads
    as well are not modelled. *)

Record datetime := mkdate { year : Z; month : Z; day : Z }.

Definition is_leap (y : Z) : bool :=
  ((y mod 4 =? 0) && negb (y mod 100 =? 0)) || (y mod 400 =? 0).

Definition days_in_month (y m : Z) : Z :=
  match m with
  | 2 => if is_leap y then 29 else 28
  | 4 | 6 | 9 | 11 => 30
  | _ => 31
  end.

Definition two_digits (a b : ascii) : option Z :=
  match digit_of a, digit_of b with
  | Some x, Some y => Some (10 * x + y)
  | _, _ => None
  end.

Definition four_digits (a b c d : ascii) : option Z :=
  match two_digits a b, two_digits c d with
  | Some x, Some y => Some (100 * x + y)
  | _, _ => None
  end.

(** The fields of a text of shape [dddd-dd-dd], unchecked. *)
Definition ymd (s : string) : option (Z * Z * Z) :=
  match s with
  | String y1 (String y2 (String y3 (String y4 (String "-"
      (String m1 (String m2 (String "-"
      (String d1 (String d2 EmptyString))))))))) =>
      match four_digits y1 y2 y3 y4, two_digits m1 m2, two_digits d1 d2 with
      | Some y, Some m, Some d => Some (y, m, d)
      | _, _, _ => None
      end
  | _ => None
  end.

(** [None] is the [ValueError]. *)
Definition fromisoformat (s : string) : option datetime :=
  match ymd s with
  | Some (y, m, d) =>
      if (1 <=? y) && (1 <=? m) && (m <=? 12) && (1 <=? d)
         && (d <=? days_in_month y m)
      then Some (mkdate y m d) else None
  | None => None
  end.

End Py.

(** ** SQLite operators used by the queries *)

Module Sqlite.

(** SQL truth values: [None] is NULL. *)
Definition or3 (a b : option bool) : option bool :=
  match a, b with
  | Some true, _ | _, Some true => Some true
  | Some false, Some false => Some false
  | _, _ => None
  end.

(** A [WHERE] clause keeps a row only when its condition is true. *)
Definition holds (v : option bool) : bool :=
  match v with
  | Some true => true
  | _ => false
  end.

(** [LIKE] folds the case of the letters A-Z only. *)
Definition lower (c : ascii) : ascii :=
  let n := N_of_ascii c in
  if ((65 <=? n) && (n <=? 90))%N then ascii_of_N (n + 32) else c.

Definition ci_eqb (a b : ascii) : bool := Ascii.eqb (lower a) (lower b).

(** [text LIKE pattern]: [%] stands for any run of characters, [_] for
    any one character. *)
Fixpoint like (pattern text : string) : bool :=
  match pattern with
  | EmptyString =>
      match text with
      | EmptyString => true
      | _ => false
      end
  | String p pattern' =>
      if Ascii.eqb p "%" then
        (fix any_run (t : string) : bool :=
           like pattern' t
           || match t with
              | String _ t' => any_run t'
              | EmptyString => false
              end) text
      else
        match text with
        | String c text' =>
            (Ascii.eqb p "_" || ci_eqb p c) && like pattern' text'
        | EmptyString => false
        end
  end.

(** On a nullable column. *)
Definition like3 (text : option string) (pattern : string) : option bool :=
  (fun t => like pattern t) <$> text.

(** [date(text)] on the form [YYYY-MM-DD]: month 1-12 and day 1-31 are
    accepted, and a day past the end of its month rolls into the next
    month.  The result, a text [YYYY-MM-DD] that SQLite compares as text,
    is represented by the number [YYYYMMDD], which orders the same way.
    [None] is NULL. *)
Definition date_key (y m d : Z) : Z := y * 10000 + m * 100 + d.

Definition date (text : string) : option Z :=
  match Py.ymd text with
  | Some (y, m, d) =>
      if (1 <=? m) && (m <=? 12) && (1 <=? d) && (d <=? 31) then
        let dim := Py.days_in_month y m in
        if d <=? dim then Some (date_key y m d)
        else Some (date_key y (m + 1) (d - dim))
      else None
  | None => None
  end.

Definition ge3 (a b : option Z) : option bool :=
  match a, b with
  | Some x, Some y => Some (y <=? x)
  | _, _ => None
  end.

Definition le3 (a b : option Z) : option bool :=
  match a, b with
  | Some x, Some y => Some (x <=? y)
  | _, _ => None
  end.

(** [SUM(column)]: NULL when there is no row. *)
Definition sum (values : list Q) : option Q :=
  match values with
  | [] => None
  | v :: values' => Some (fold_left Qplus values' v)
  end.

(** The values a Python int may be bound to. *)
Definition fits_int64 (z : Z) : bool :=
  (- 2 ^ 63 <=? z) && (z <? 2 ^ 63).

End Sqlite.

(** ** The tables (main.py, lines 48-64) *)

Module Clients.
Record row := mk {
  client_id : Z;
  name : string;
  phone : string;
  address : string;
  city : string;
  total_spent : Q;
  total_orders : Z
}.
End Clients.

Module Products.
(** [weight], [default_delivery_price] and [selling_price] are the columns
    the program reads with [or 0]: they may be NULL. *)
Record row := mk {
  product_id : Z;
  name : string;
  purchase_price : Q;
  weight : option Q;
  default_delivery_price : option Q;
  selling_price : option Q;
  stock_qty : Z
}.
End Products.

Module Sales.
Record row := mk {
  sale_id : Z;
  invoice_no : string;
  client_id : Z;
  product_id : Z;
  quantity : Z;
  purchase_price : Q;
  selling_price : Q;
  weight : Q;
  delivery_price : Q;
  tot_livraison : Q;
  p_fayda : Q;
  fayda_safia : Q;
  payment_method : string;
  status : string;
  paid : Z;
  date : string
}.
End Sales.

(** The connection: the three tables the ledger uses, and the counter that
    [AUTOINCREMENT] keeps for [Sales] (the largest [sale_id] ever given). *)
Record DB := mkDB {
  clients : list Clients.row;
  products : list Products.row;
  sales : list Sales.row;
  sales_sequence : Z
}.

(** ** The invoice sequencer (main.py, lines 66-81) *)

(** [ORDER BY sale_id DESC LIMIT 1] *)
Fixpoint last_by_sale_id (rows : list Sales.row) : option Sales.row :=
  match rows with
  | [] => None
  | r :: rows' =>
      match last_by_sale_id rows' with
      | Some r' => if Sales.sale_id r <? Sales.sale_id r' then Some r' else Some r
      | None => Some r
      end
  end.

(** [f'DZAIR-{year}-%'] *)
Definition invoice_pattern (year : Z) : string :=
  "DZAIR-" +:+ Py.str year +:+ "-%".

(** [f"DZAIR-{year}-{seq:03d}"] *)
Definition invoice_text (year seq : Z) : string :=
  "DZAIR-" +:+ Py.str year +:+ "-" +:+ Py.format_03d seq.

Definition invoices_like (pattern : string) (rows : list Sales.row) : list Sales.row :=
  filter (fun r => Sqlite.like pattern (Sales.invoice_no r) = true) rows.

Definition next_seq (rows : list Sales.row) (year : Z) : Z :=
  match last_by_sale_id (invoices_like (invoice_pattern year) rows) with
  | None => 1
  | Some row =>
      let last := Sales.invoice_no row in
      match Py.int (Py.last_segment last) with
      | Some n => n + 1
      | None => 1
      end
  end.

(** [today] is the clock's [datetime.now().strftime("%Y-%m-%d")], read only
    when no [date_str] is passed. *)
Definition generate_invoice_no (conn : DB) (date_str : option string)
    (today : string) : Py.res string :=
  let date_str := default today date_str in
  match Py.fromisoformat date_str with
  | None => Py.Raise Py.ValueError
  | Some d =>
      let year := Py.year d in
      let seq := next_seq (sales conn) year in
      Py.Ret (invoice_text year seq)
  end.

(** ** The application (main.py, class [App]) *)

(** What the user has typed into the entry widgets and combo boxes. *)
Record Form := mkForm {
  sale_client : string;
  sale_product : string;
  sale_qty : string;
  sale_delivery : string;
  sale_payment : string;
  sale_status : string;
  search_var : string;
  date_from : string;
  date_to : string
}.

(** One line of the sales table on screen (main.py, line 291). *)
Record TreeRow := mkTreeRow {
  t_sale_id : Z;
  t_invoice_no : string;
  t_date : string;
  t_client : option string;
  t_product : option string;
  t_qty : Z;
  t_selling_price : Q;
  t_tot_livraison : Q;
  t_p_fayda : Q;
  t_fayda_safia : Q;
  t_status : string
}.

(** [self]: the open connection, the two key maps of the combo boxes, the
    sales table on screen and the three figures of the dashboard labels. *)
Record App := mkApp {
  conn : DB;
  client_map : gmap string Z;
  product_map : gmap string Z;
  sales_tree : list TreeRow;
  lbl_sales : Z;
  lbl_profit : Q;
  lbl_delivery : Q
}.

(** What a method shows or lets escape. *)
Inductive event :=
| showerror (title message : string)
| showinfo (title message : string)
| raised (e : Py.exn).

(** *** [refresh_sales] (main.py, lines 251-291) *)

(** [f"{r['name']} ({r['client_id']})"] *)
Definition map_key (name : string) (id : Z) : string :=
  name +:+ " (" +:+ Py.str id +:+ ")".

Definition build_client_map (rows : list Clients.row) : gmap string Z :=
  foldl (fun m r => <[map_key (Clients.name r) (Clients.client_id r) := Clients.client_id r]> m)
        ∅ rows.

Definition build_product_map (rows : list Products.row) : gmap string Z :=
  foldl (fun m r => <[map_key (Products.name r) (Products.product_id r) := Products.product_id r]> m)
        ∅ rows.

(** A row of [Sales S LEFT JOIN Clients C ... LEFT JOIN Products P ...];
    [client_id] and [product_id] are primary keys, so at most one row of
    each table joins. *)
Record Joined := mkJoined {
  sale : Sales.row;
  client_name : option string;
  product_name : option string
}.

Definition find_client (conn : DB) (id : Z) : option Clients.row :=
  find (fun c => Clients.client_id c =? id) (clients conn).

Definition find_product (conn : DB) (id : Z) : option Products.row :=
  find (fun p => Products.product_id p =? id) (products conn).

Definition join (conn : DB) (s : Sales.row) : Joined :=
  mkJoined s
    (Clients.name <$> find_client conn (Sales.client_id s))
    (Products.name <$> find_product conn (Sales.product_id s)).

(** [C.name LIKE ? OR P.name LIKE ? OR S.invoice_no LIKE ? OR S.status LIKE ?] *)
Definition search_matches (sparam : string) (j : Joined) : option bool :=
  Sqlite.or3
    (Sqlite.or3
       (Sqlite.or3 (Sqlite.like3 (client_name j) sparam)
                   (Sqlite.like3 (product_name j) sparam))
       (Sqlite.like3 (Some (Sales.invoice_no (sale j))) sparam))
    (Sqlite.like3 (Some (Sales.status (sale j))) sparam).

(** The [WHERE] clause built from the stripped filter texts; an empty text
    adds no condition. *)
Definition where_clause (s df dt : string) (j : Joined) : bool :=
  (match s with
   | EmptyString => true
   | _ => Sqlite.holds (search_matches ("%" +:+ s +:+ "%") j)
   end)
  && (match df with
      | EmptyString => true
      | _ => Sqlite.holds (Sqlite.ge3 (Sqlite.date (Sales.date (sale j))) (Sqlite.date df))
      end)
  && (match dt with
      | EmptyString => true
      | _ => Sqlite.holds (Sqlite.le3 (Sqlite.date (Sales.date (sale j))) (Sqlite.date dt))
      end).

(** [ORDER BY S.sale_id DESC] *)
Fixpoint insert_desc (j : Joined) (l : list Joined) : list Joined :=
  match l with
  | [] => [j]
  | x :: l' =>
      if Sales.sale_id (sale x) <? Sales.sale_id (sale j) then j :: l
      else x :: insert_desc j l'
  end.

Definition order_by_sale_id_desc (l : list Joined) : list Joined :=
  foldr insert_desc [] l.

Definition select_sales (conn : DB) (s df dt : string) : list Joined :=
  order_by_sale_id_desc
    (List.filter (where_clause s df dt) (map (join conn) (sales conn))).

Definition tree_values (j : Joined) : TreeRow :=
  let row := sale j in
  mkTreeRow (Sales.sale_id row) (Sales.invoice_no row) (Sales.date row)
    (client_name j) (product_name j) (Sales.quantity row)
    (Sales.selling_price row) (Sales.tot_livraison row) (Sales.p_fayda row)
    (Sales.fayda_safia row) (Sales.status row).

Definition date_error_from : event :=
  showerror "Date Error" "From date must be YYYY-MM-DD".
Definition date_error_to : event :=
  showerror "Date Error" "To date must be YYYY-MM-DD".

Definition refresh_sales (form : Form) (self : App) : App * list event :=
  let self :=
    mkApp (conn self) (build_client_map (clients (conn self)))
      (build_product_map (products (conn self)))
      (sales_tree self) (lbl_sales self) (lbl_profit self) (lbl_delivery self) in
  let s := Py.strip (search_var form) in
  let df := Py.strip (date_from form) in
  let dt := Py.strip (date_to form) in
  let df_ok :=
    match df with
    | EmptyString => true
    | _ => bool_decide (is_Some (Py.fromisoformat df))
    end in
  let dt_ok :=
    match dt with
    | EmptyString => true
    | _ => bool_decide (is_Some (Py.fromisoformat dt))
    end in
  if negb df_ok then (self, [date_error_from])
  else if negb dt_ok then (self, [date_error_to])
  else
    (mkApp (conn self) (client_map self) (product_map self)
       (map tree_values (select_sales (conn self) s df dt))
       (lbl_sales self) (lbl_profit self) (lbl_delivery self), []).

(** *** [add_sale] (main.py, lines 293-320) *)

(** The [INSERT INTO Sales]: the row gets the next [sale_id]; binding an int
    outside 64 bits raises [OverflowError], and a repeated [invoice_no]
    breaks the [UNIQUE] constraint. *)
Definition max_sale_id (rows : list Sales.row) : Z :=
  foldr (fun r m => Z.max (Sales.sale_id r) m) 0 rows.

Definition next_sale_id (conn : DB) : Z :=
  Z.max (max_sale_id (sales conn)) (sales_sequence conn) + 1.

Definition invoice_taken (conn : DB) (invoice : string) : bool :=
  existsb (fun r => String.eqb (Sales.invoice_no r) invoice) (sales conn).

Definition insert_sale (conn : DB) (values : Z -> Sales.row) : Py.res DB :=
  let id := next_sale_id conn in
  let row := values id in
  if negb (Sqlite.fits_int64 (Sales.client_id row)
           && Sqlite.fits_int64 (Sales.product_id row)
           && Sqlite.fits_int64 (Sales.quantity row))
  then Py.Raise Py.OverflowError
  else if invoice_taken conn (Sales.invoice_no row)
  then Py.Raise Py.IntegrityError
  else Py.Ret (mkDB (clients conn) (products conn) (sales conn ++ [row]) id).

(** [UPDATE Clients SET total_spent = total_spent + ?,
     total_orders = total_orders + 1 WHERE client_id = ?] *)
Definition update_client (amount : Q) (id : Z) (c : Clients.row) : Clients.row :=
  if Clients.client_id c =? id then
    Clients.mk (Clients.client_id c) (Clients.name c) (Clients.phone c)
      (Clients.address c) (Clients.city c)
      (Clients.total_spent c + amount) (Clients.total_orders c + 1)
  else c.

(** [UPDATE Products SET stock_qty = stock_qty - ? WHERE product_id = ?] *)
Definition update_product (qty : Z) (id : Z) (p : Products.row) : Products.row :=
  if Products.product_id p =? id then
    Products.mk (Products.product_id p) (Products.name p)
      (Products.purchase_price p) (Products.weight p)
      (Products.default_delivery_price p) (Products.selling_price p)
      (Products.stock_qty p - qty)
  else p.

Definition with_conn (self : App) (c : DB) : App :=
  mkApp c (client_map self) (product_map self) (sales_tree self)
    (lbl_sales self) (lbl_profit self) (lbl_delivery self).

(** Lines 297-300: [int(self.sale_qty.get() or 1)]; [None] is the
    "Quantity must be integer" branch. *)
Definition read_qty (form : Form) : option Z :=
  match sale_qty form with
  | EmptyString => Some 1
  | text => Py.int text
  end.

(** Lines 301-304: [float(text) if text.strip() else None]; the outer [None]
    is the "Delivery must be numeric" branch. *)
Definition read_delivery (form : Form) : option (option Q) :=
  match Py.strip (sale_delivery form) with
  | EmptyString => Some None
  | _ => Some <$> Py.float (sale_delivery form)
  end.

(** Lines 313-317: the snapshot of the product, the derived figures and the
    tuple of values inserted. *)
Definition new_sale (invoice : string) (client_id product_id qty : Z)
    (prod : Products.row) (delivery_price : option Q)
    (payment status date_str : string) (id : Z) : Sales.row :=
  let purchase_price := Products.purchase_price prod in
  let weight := Py.or_Q (Products.weight prod) 0 in
  let default_del := Py.or_Q (Products.default_delivery_price prod) 0 in
  let selling_price := Py.or_Q (Products.selling_price prod) 0 in
  let delivery_price := default default_del delivery_price in
  let tot_liv := tot_livraison weight delivery_price in
  let pf := p_fayda selling_price tot_liv purchase_price in
  let fs := fayda_safia pf in
  Sales.mk id invoice client_id product_id qty purchase_price selling_price
    weight delivery_price tot_liv pf fs payment status
    (if String.eqb status "Delivered" then 1 else 0) date_str.

(** Lines 318-319: the two [UPDATE]s. *)
Definition apply_updates (db : DB) (amount : Q) (client_id qty product_id : Z) : DB :=
  let db :=
    mkDB (map (update_client amount client_id) (clients db))
      (products db) (sales db) (sales_sequence db) in
  mkDB (clients db) (map (update_product qty product_id) (products db))
    (sales db) (sales_sequence db).

Definition add_sale (form : Form) (today : string) (self : App) : App * list event :=
  let client_key := sale_client form in
  let prod_key := sale_product form in
  match client_map self !! client_key, product_map self !! prod_key with
  | Some client_id, Some product_id =>
      match read_qty form with
      | None => (self, [showerror "Validation" "Quantity must be integer"])
      | Some qty =>
          match read_delivery form with
          | None => (self, [showerror "Validation" "Delivery must be numeric"])
          | Some delivery_price =>
              let payment := Py.or_str (sale_payment form) "Cash" in
              let status := Py.or_str (sale_status form) "Pending" in
              let date_str := today in
              match find_product (conn self) product_id with
              | None => (self, [showerror "Error" "Product not found"])
              | Some prod =>
                  let selling_price := Py.or_Q (Products.selling_price prod) 0 in
                  match generate_invoice_no (conn self) (Some date_str) today with
                  | Py.Raise e => (self, [raised e])
                  | Py.Ret invoice =>
                      match insert_sale (conn self)
                              (new_sale invoice client_id product_id qty prod
                                 delivery_price payment status date_str) with
                      | Py.Raise e => (self, [raised e])
                      | Py.Ret db =>
                          let db :=
                            apply_updates db (selling_price * inject_Z qty)
                              client_id qty product_id in
                          let '(self', shown) := refresh_sales form (with_conn self db) in
                          (self', showinfo "Sale Added" ("Invoice: " +:+ invoice) :: shown)
                      end
                  end
              end
          end
      end
  | _, _ => (self, [showerror "Validation" "Select valid client and product"])
  end.

(** *** [refresh_dashboard] (main.py, lines 341-346): the three figures
    behind the labels.  The chart drawn after them is presentation. *)

Definition refresh_dashboard (self : App) : App :=
  let sales_count := Z.of_nat (length (sales (conn self))) in
  let total_profit :=
    Py.or_Q (Sqlite.sum (map Sales.p_fayda (sales (conn self)))) 0 in
  let total_delivery :=
    Py.or_Q (Sqlite.sum (map Sales.tot_livraison (sales (conn self)))) 0 in
  mkApp (conn self) (client_map self) (product_map self) (sales_tree self)
    sales_count total_profit total_delivery.

(** ** Runs of the application *)

(** What the user does between two looks at the ledger. *)
Inductive action :=
| Add_sale (form : Form) (today : string)
| Refresh_sales (form : Form)
| Refresh_dashboard.

Definition step (a : action) (self : App) : App * list event :=
  match a with
  | Add_sale form today => add_sale form today self
  | Refresh_sales form => refresh_sales form self
  | Refresh_dashboard => (refresh_dashboard self, [])
  end.

Fixpoint run (actions : list action) (self : App) : App :=
  match actions with
  | [] => self
  | a :: actions' => run actions' (fst (step a self))
  end.

(** A method succeeded in adding a sale when its first dialog is the
    "Sale Added" information box. *)
Definition sale_added (shown : list event) : bool :=
  match shown with
  | showinfo _ _ :: _ => true
  | _ => false
  end.

(** How many sales a run of actions adds. *)
Fixpoint sales_added (actions : list action) (self : App) : nat :=
  match actions with
  | [] => O
  | a :: actions' =>
      ((if sale_added (snd (step a self)) then 1 else 0)
       + sales_added actions' (fst (step a self)))%nat
  end.

(** ** Notions the statements use *)

(** The sum of a column, as mathematics writes it: zero for no rows. *)
Definition total (values : list Q) : Q := foldr Qplus 0%Q values.

(** The ledger after an accepted request. *)
Definition recorded (form : Form) (today : string) (self : App)
    (cid pid q : Z) (dl : option Q) (prod : Products.row) (y : Z) : DB :=
  let invoice := invoice_text y (next_seq (sales (conn self)) y) in
  let row :=
    new_sale invoice cid pid q prod dl
      (Py.or_str (sale_payment form) "Cash")
      (Py.or_str (sale_status form) "Pending") today
      (next_sale_id (conn self)) in
  mkDB
    (map (update_client (Py.or_Q (Products.selling_price prod) 0 * inject_Z q) cid)
       (clients (conn self)))
    (map (update_product q pid) (products (conn self)))
    (sales (conn self) ++ [row])
    (next_sale_id (conn self)).

(** The conditions under which [add_sale] goes through: both keys are in
    the maps, the two entries parse, the product row is there, the clock
    gives a date, the ids fit SQLite integers and the invoice number is
    free. *)
Record accepted (form : Form) (today : string) (self : App)
    (cid pid q : Z) (dl : option Q) (prod : Products.row) (y : Z) : Prop := {
  acc_client : client_map self !! sale_client form = Some cid;
  acc_product : product_map self !! sale_product form = Some pid;
  acc_qty : read_qty form = Some q;
  acc_delivery : read_delivery form = Some dl;
  acc_row : find_product (conn self) pid = Some prod;
  acc_date : Py.year <$> Py.fromisoformat today = Some y;
  acc_fits :
    Sqlite.fits_int64 cid && Sqlite.fits_int64 pid && Sqlite.fits_int64 q = true;
  acc_free :
    invoice_taken (conn self)
      (invoice_text y (next_seq (sales (conn self)) y)) = false
}.


(** Newest first. *)
Definition newer_first (a b : Joined) : Prop :=
  Sales.sale_id (sale b) <= Sales.sale_id (sale a).

(** The calendar year a sale is dated in. *)
Definition in_year (y : Z) (row : Sales.row) : Prop :=
  Py.year <$> Py.fromisoformat (Sales.date row) = Some y.

#[global] Instance in_year_dec (y : Z) (row : Sales.row) : Decision (in_year y row).
Proof. unfold in_year. apply _. Defined.

(** [n], [n+1], ... ([k] numbers). *)
Fixpoint count_from (n : Z) (k : nat) : list Z :=
  match k with
  | O => []
  | S k' => n :: count_from (n + 1) k'
  end.

(** The number a list of decimal digits denotes, most significant digit
    first, and least significant digit first. *)
Definition value_of (ds : list Z) : Z := fold_left (fun a d => 10 * a + d) ds 0.

Definition value_lsd (ds : list Z) : Z := foldr (fun d a => 10 * a + d) 0 ds.

Definition is_digit (d : Z) : Prop := 0 <= d <= 9.

(** The digits [str] writes for a number that is not negative. *)
Definition digits_of (n : Z) : list Z :=
  rev (Py.digits_lsd (S (Z.to_nat (Z.log2 n))) n).

(** Text without a hyphen. *)
Fixpoint no_hyphen (s : string) : Prop :=
  match s with
  | EmptyString => True
  | String c r => c <> "-"%char /\ no_hyphen r
  end.

(** ** Sample data *)

(** A small shop: two clients, two products (the second with its optional
    figures left NULL), no sale yet. *)
Definition shop : DB :=
  mkDB
    [Clients.mk 1 "Amine" "0550" "Rue 1" "Alger" 0 0;
     Clients.mk 2 "Sara" "0661" "Rue 2" "Oran" 0 0]
    [Products.mk 1 "Burnous" 1000 (Some 2%Q) (Some 200%Q) (Some 3000%Q) 5;
     Products.mk 2 "Teapot" 400 None None None 0]
    [] 0.

Definition blank_form : Form := mkForm "" "" "" "" "" "" "" "" "".

(** The application once started on the shop: [refresh_sales] has built
    the key maps. *)
Definition shop_app : App :=
  fst (refresh_sales blank_form (mkApp shop ∅ ∅ [] 0 0 0)).

Definition order (client product qty delivery status : string) : Form :=
  mkForm client product qty delivery "" status "" "" "".

Definition filter_form (search from to : string) : Form :=
  mkForm "" "" "" "" "" "" search from to.

(** One Burnous (purchase 1000, weight 2, delivery 200, selling 3000) for
    Amine, delivered. *)
Definition order_burnous : Form := order "Amine (1)" "Burnous (1)" "1" "" "Delivered".
Definition order_teapot : Form := order "Sara (2)" "Teapot (2)" "" "" "".
Definition order_returned : Form := order "Amine (1)" "Burnous (1)" "-2" "-5" "".
Definition order_unknown_client : Form := order "Nobody (9)" "Burnous (1)" "1" "" "".
Definition order_bad_qty : Form := order "Amine (1)" "Burnous (1)" "two" "" "".

(** The shop after the sale of one Burnous. *)
Definition shop_after_sale : App :=
  fst (add_sale order_burnous "2024-05-01" shop_app).

(** A ledger with three sales on three days. *)
Definition january : App :=
  run [Add_sale order_burnous "2023-12-31";
       Add_sale order_teapot "2024-01-15";
       Add_sale order_burnous "2024-02-01"] shop_app.

(** A busy week across a change of year. *)
Definition new_year : list action :=
  [Add_sale order_burnous "2023-12-30";
   Add_sale order_bad_qty "2023-12-30";
   Add_sale order_teapot "2023-12-31";
   Refresh_dashboard;
   Add_sale order_burnous "2024-01-02";
   Add_sale order_unknown_client "2024-01-02";
   Add_sale order_teapot "2023-12-31";
   Refresh_sales (filter_form "" "" "");
   Add_sale order_returned "2024-01-03"].

(** * The rest of the application

    The parts of [self] that the ledger methods above do not read or write:
    the [SponsoredFees] table, the [AUTOINCREMENT] counters of [Clients],
    [Products] and [SponsoredFees], and the three other lists on screen.
    [Session] wraps [App] with them. *)

Module Fees.
Record row := mk {
  fee_id : Z;
  campaign_name : string;
  platform : string;
  amount_spent : Q;
  date : string
}.
End Fees.

Record Session := mkSession {
  app : App;
  fees : list Fees.row;
  clients_sequence : Z;
  products_sequence : Z;
  fees_sequence : Z;
  clients_tree : list Clients.row;
  products_tree : list Products.row;
  fees_tree : list Fees.row
}.

Definition with_app (s : Session) (a : App) : Session :=
  mkSession a (fees s) (clients_sequence s) (products_sequence s)
    (fees_sequence s) (clients_tree s) (products_tree s) (fees_tree s).

(** The entries of the three other forms. *)
Record ClientForm := mkClientForm {
  c_name : string;
  c_phone : string;
  c_address : string;
  c_city : string
}.

Record ProductForm := mkProductForm {
  p_name : string;
  p_purchase : string;
  p_weight : string;
  p_del : string;
  p_sell : string;
  p_stock : string
}.

Record FeeForm := mkFeeForm {
  f_name : string;
  f_platform : string;
  f_amount : string
}.

(** [ORDER BY key DESC] on any table. *)
Fixpoint insert_by_desc {A : Type} (key : A -> Z) (x : A) (l : list A) : list A :=
  match l with
  | [] => [x]
  | y :: l' =>
      if key y <? key x then x :: l else y :: insert_by_desc key x l'
  end.

Definition order_by_desc {A : Type} (key : A -> Z) (l : list A) : list A :=
  foldr (insert_by_desc key) [] l.

(** The id [AUTOINCREMENT] gives the next row of a table. *)
Definition next_id {A : Type} (key : A -> Z) (rows : list A) (sequence : Z) : Z :=
  Z.max (foldr (fun r m => Z.max (key r) m) 0 rows) sequence + 1.

(** *** Clients (main.py, lines 167-180) *)

Definition refresh_clients (s : Session) : Session :=
  mkSession (app s) (fees s) (clients_sequence s) (products_sequence s)
    (fees_sequence s)
    (order_by_desc Clients.client_id (clients (conn (app s))))
    (products_tree s) (fees_tree s).

Definition add_client (form : ClientForm) (s : Session) : Session * list event :=
  let name := Py.strip (c_name form) in
  match name with
  | EmptyString => (s, [showerror "Validation" "Client name is required."])
  | _ =>
      let db := conn (app s) in
      let id := next_id Clients.client_id (clients db) (clients_sequence s) in
      let row :=
        Clients.mk id name (Py.strip (c_phone form)) (Py.strip (c_address form))
          (Py.strip (c_city form)) 0 0 in
      let db := mkDB (clients db ++ [row]) (products db) (sales db) (sales_sequence db) in
      let s :=
        mkSession (with_conn (app s) db) (fees s) id (products_sequence s)
          (fees_sequence s) (clients_tree s) (products_tree s) (fees_tree s) in
      (refresh_clients s, [showinfo "OK" "Client added."])
  end.

(** *** Products (main.py, lines 202-221) *)

Definition refresh_products (s : Session) : Session :=
  mkSession (app s) (fees s) (clients_sequence s) (products_sequence s)
    (fees_sequence s) (clients_tree s)
    (order_by_desc Products.product_id (products (conn (app s))))
    (fees_tree s).

(** [float(text or 0)] and [int(text or 0)]: the empty text reads as 0. *)
Definition float_or_0 (text : string) : option Q :=
  match text with
  | EmptyString => Some 0%Q
  | _ => Py.float text
  end.

Definition int_or_0 (text : string) : option Z :=
  match text with
  | EmptyString => Some 0
  | _ => Py.int text
  end.

(** Lines 203-207: the five entries read in the [try] block, in the order
    the code reads them; [None] is the [except] branch. *)
Definition read_product (form : ProductForm) : option (Q * Q * Q * Q * Z) :=
  match Py.float (p_purchase form) with
  | None => None
  | Some purchase =>
      match Py.float (p_sell form) with
      | None => None
      | Some selling =>
          match float_or_0 (p_weight form) with
          | None => None
          | Some weight =>
              match float_or_0 (p_del form) with
              | None => None
              | Some default_del =>
                  match int_or_0 (p_stock form) with
                  | None => None
                  | Some stock => Some (purchase, selling, weight, default_del, stock)
                  end
              end
          end
      end
  end.

Definition add_product (form : ProductForm) (s : Session) : Session * list event :=
  match read_product form with
  | None =>
      (s, [showerror "Validation"
             "Please enter numeric values for prices, weight and stock."])
  | Some (purchase, selling, weight, default_del, stock) =>
      let name := Py.strip (p_name form) in
      match name with
      | EmptyString => (s, [showerror "Validation" "Product name required."])
      | _ =>
          if negb (Sqlite.fits_int64 stock) then (s, [raised Py.OverflowError])
          else
            let db := conn (app s) in
            let id := next_id Products.product_id (products db) (products_sequence s) in
            let row :=
              Products.mk id name purchase (Some weight) (Some default_del)
                (Some selling) stock in
            let db :=
              mkDB (clients db) (products db ++ [row]) (sales db) (sales_sequence db) in
            let s :=
              mkSession (with_conn (app s) db) (fees s) (clients_sequence s) id
                (fees_sequence s) (clients_tree s) (products_tree s) (fees_tree s) in
            (refresh_products s, [showinfo "OK" "Product added."])
      end
  end.

(** *** Sponsored fees (main.py, lines 377-389) *)

Definition refresh_fees (s : Session) : Session :=
  mkSession (app s) (fees s) (clients_sequence s) (products_sequence s)
    (fees_sequence s) (clients_tree s) (products_tree s)
    (order_by_desc Fees.fee_id (fees s)).

Definition add_fee (form : FeeForm) (today : string) (s : Session) : Session * list event :=
  let name := Py.strip (f_name form) in
  match name with
  | EmptyString => (s, [showerror "Validation" "Campaign name required"])
  | _ =>
      match Py.float (f_amount form) with
      | None => (s, [showerror "Validation" "Amount must be numeric"])
      | Some amt =>
          let plat := Py.strip (f_platform form) in
          let date_str := today in
          let id := next_id Fees.fee_id (fees s) (fees_sequence s) in
          let s :=
            mkSession (app s) (fees s ++ [Fees.mk id name plat amt date_str])
              (clients_sequence s) (products_sequence s) id
              (clients_tree s) (products_tree s) (fees_tree s) in
          (refresh_fees s, [showinfo "OK" "Fee added"])
      end
  end.

(** *** The methods of the ledger, on the whole session *)

Definition session_add_sale (form : Form) (today : string) (s : Session) : Session * list event :=
  let '(a, shown) := add_sale form today (app s) in (with_app s a, shown).

Definition session_refresh_sales (form : Form) (s : Session) : Session * list event :=
  let '(a, shown) := refresh_sales form (app s) in (with_app s a, shown).

(** [refresh_all] (main.py, lines 462-463) *)
Definition refresh_all (form : Form) (s : Session) : Session * list event :=
  let s := refresh_clients s in
  let s := refresh_products s in
  let '(s, shown) := session_refresh_sales form s in
  let s := with_app s (refresh_dashboard (app s)) in
  (refresh_fees s, shown).

(** *** Export of the filtered sales (main.py, lines 413-432)

    [path] is what the save dialog returned, empty when it was cancelled.
    The sheet written is the list of the rows selected, [None] when no file
    is written. *)
Definition export_filtered_excel (path : string) (form : Form) (self : App)
  : option (list Joined) * list event :=
  match path with
  | EmptyString => (None, [])
  | _ =>
      let s := Py.strip (search_var form) in
      let df := Py.strip (date_from form) in
      let dt := Py.strip (date_to form) in
      let df_ok :=
        match df with
        | EmptyString => true
        | _ => bool_decide (is_Some (Py.fromisoformat df))
        end in
      let dt_ok :=
        match dt with
        | EmptyString => true
        | _ => bool_decide (is_Some (Py.fromisoformat dt))
        end in
      if negb df_ok then (None, [date_error_from])
      else if negb dt_ok then (None, [date_error_to])
      else
        (Some (select_sales (conn self) s df dt),
         [showinfo "Exported" ("Filtered sales saved to " +:+ path)])
  end.

(** *** The invoice of the selected sale (main.py, lines 434-454)

    What the page prints, field by field; the layout of the page and the
    text form of the numbers are presentation. *)
Record InvoicePage := mkInvoicePage {
  page_invoice : string;
  page_date : string;
  page_client : option string;
  page_phone : option string;
  page_address : option string;
  page_product : option string;
  page_quantity : Z;
  page_selling_price : Q;
  page_delivery : Q;
  page_p_fayda : Q;
  page_fayda_safia : Q
}.

(** [SELECT S.*, C.name, C.phone, C.address, P.name ... WHERE S.sale_id = ?] *)
Definition invoice_page (db : DB) (row : Sales.row) : InvoicePage :=
  let c := find_client db (Sales.client_id row) in
  let p := find_product db (Sales.product_id row) in
  mkInvoicePage (Sales.invoice_no row) (Sales.date row)
    (Clients.name <$> c) (Clients.phone <$> c) (Clients.address <$> c)
    (Products.name <$> p) (Sales.quantity row) (Sales.selling_price row)
    (Sales.delivery_price row) (Sales.p_fayda row) (Sales.fayda_safia row).

(** [reportlab] tells whether the import of the PDF library succeeded,
    [selection] is the lines selected in the sales list, [path] what the
    save dialog returned. *)
Definition export_invoice_pdf (reportlab : bool) (selection : list TreeRow)
    (path : string) (self : App) : option InvoicePage * list event :=
  if negb reportlab then
    (None, [showerror "Error"
              "reportlab not installed. Install with: pip install reportlab"])
  else
    match selection with
    | [] => (None, [showerror "Error" "Select a sale first"])
    | sel :: _ =>
        let sale_id := t_sale_id sel in
        match find (fun r => Sales.sale_id r =? sale_id) (sales (conn self)) with
        | None => (None, [showerror "Error" "Sale not found"])
        | Some row =>
            match path with
            | EmptyString => (None, [])
            | _ =>
                (Some (invoice_page (conn self) row),
                 [showinfo "Saved" ("Invoice saved to " +:+ path)])
            end
        end
    end.

(** *** The chart of [refresh_dashboard] (main.py, lines 349-350)

    [SELECT date, SUM(p_fayda), COUNT( * ) FROM Sales WHERE date >= since
     GROUP BY date ORDER BY date], where [since] is the text that
    [date('now','-13 days')] gives.  Dates are compared as text. *)
Fixpoint add_to_day (d : string) (profit : Q) (days : list (string * Q * Z))
  : list (string * Q * Z) :=
  match days with
  | [] => [(d, profit, 1)]
  | (d', p', n') :: days' =>
      match String.compare d d' with
      | Eq => (d', (p' + profit)%Q, n' + 1) :: days'
      | Lt => (d, profit, 1) :: days
      | Gt => (d', p', n') :: add_to_day d profit days'
      end
  end.

Definition in_window (since : string) (r : Sales.row) : bool :=
  String.leb since (Sales.date r).

Definition profit_by_day (since : string) (rows : list Sales.row)
  : list (string * Q * Z) :=
  fold_left (fun days r => add_to_day (Sales.date r) (Sales.p_fayda r) days)
    (List.filter (in_window since) rows) [].


(** *** Whole sessions *)

(** What the user can do in the window. *)
Inductive command :=
| Client (form : ClientForm)
| Product (form : ProductForm)
| Fee (form : FeeForm) (today : string)
| Sale (form : Form) (today : string)
| List_sales (form : Form)
| Dashboard
| Everything (form : Form).

Definition perform (c : command) (s : Session) : Session * list event :=
  match c with
  | Client form => add_client form s
  | Product form => add_product form s
  | Fee form today => add_fee form today s
  | Sale form today => session_add_sale form today s
  | List_sales form => session_refresh_sales form s
  | Dashboard => (with_app s (refresh_dashboard (app s)), [])
  | Everything form => refresh_all form s
  end.

Fixpoint session_run (commands : list command) (s : Session) : Session :=
  match commands with
  | [] => s
  | c :: commands' => session_run commands' (fst (perform c s))
  end.

(** The window as [__init__] leaves it (main.py, lines 101-104): the
    connection open on the database file and every list refreshed. *)
Definition start (form : Form) (db : DB) (stored_fees : list Fees.row)
    (clients_seq products_seq fees_seq : Z) : Session :=
  fst (refresh_all form
         (mkSession (mkApp db ∅ ∅ [] 0 0 0) stored_fees
            clients_seq products_seq fees_seq [] [] [])).

(** ** Invariants of the ledger *)

(** Every id in the key maps is the id of a row. *)
Definition maps_sound (a : App) : Prop :=
  (forall k id, client_map a !! k = Some id ->
                exists c, c ∈ clients (conn a) /\ Clients.client_id c = id)
  /\ (forall k id, product_map a !! k = Some id ->
                   exists p, p ∈ products (conn a) /\ Products.product_id p = id).

(** Every sale is the sale of a client and of a product of the tables. *)
Definition references_ok (db : DB) : Prop :=
  forall r, r ∈ sales db ->
    (exists c, c ∈ clients db /\ Clients.client_id c = Sales.client_id r)
    /\ (exists p, p ∈ products db /\ Products.product_id p = Sales.product_id r).


Definition amount (r : Sales.row) : Q :=
  (Sales.selling_price r * inject_Z (Sales.quantity r))%Q.



(** Invoice numbers written by the sequencer, each below the next number
    of its year. *)
Definition numbered (rows : list Sales.row) : Prop :=
  forall r, r ∈ rows ->
    exists y n, 0 <= y /\ 0 <= n
                /\ Sales.invoice_no r = invoice_text y n
                /\ n < next_seq rows y.


(** The key maps as [refresh_sales] leaves them. *)
Definition fresh_maps (a : App) : Prop :=
  client_map a = build_client_map (clients (conn a))
  /\ product_map a = build_product_map (products (conn a)).

Definition same_maps (a b : App) : Prop :=
  client_map a = client_map b /\ product_map a = product_map b.

(** What one command can do to the ledger: leave the tables alone, append
    one client, append one product, or record one accepted sale. *)
Inductive effect (s s' : Session) : Prop :=
| effect_none :
    conn (app s') = conn (app s) ->
    same_maps (app s') (app s) \/ fresh_maps (app s') ->
    effect s s'
| effect_client (row : Clients.row) :
    conn (app s')
    = mkDB (clients (conn (app s)) ++ [row]) (products (conn (app s)))
        (sales (conn (app s))) (sales_sequence (conn (app s))) ->
    same_maps (app s') (app s) ->
    Clients.total_spent row = 0%Q -> Clients.total_orders row = 0 ->
    (forall c, c ∈ clients (conn (app s)) ->
               Clients.client_id c < Clients.client_id row) ->
    effect s s'
| effect_product (row : Products.row) :
    conn (app s')
    = mkDB (clients (conn (app s))) (products (conn (app s)) ++ [row])
        (sales (conn (app s))) (sales_sequence (conn (app s))) ->
    same_maps (app s') (app s) ->
    (forall p, p ∈ products (conn (app s)) ->
               Products.product_id p < Products.product_id row) ->
    effect s s'
| effect_sale (form : Form) (today : string) (cid pid q : Z) (dl : option Q)
    (prod : Products.row) (y : Z) :
    accepted form today (app s) cid pid q dl prod y ->
    conn (app s') = recorded form today (app s) cid pid q dl prod y ->
    fresh_maps (app s') ->
    effect s s'.


(** A session on the sample shop and a day of work in it. *)
Definition shop_session : Session := start blank_form shop [] 2 2 0.

Definition form_lina : ClientForm := mkClientForm " Lina " "0770" "Rue 3" "Setif".
Definition form_carpet : ProductForm := mkProductForm "Carpet" "2500" "" "150" "6000" "3".
Definition order_carpet : Form := order "Lina (3)" "Carpet (3)" "2" "" "".
Definition form_campaign : FeeForm := mkFeeForm "Eid" "Facebook" "1500.50".

Definition busy_day : list command :=
  [Sale order_burnous "2024-05-01";
   Client form_lina;
   Product form_carpet;
   Sale order_carpet "2024-05-01";
   List_sales blank_form;
   Sale order_carpet "2024-05-02";
   Fee form_campaign "2024-05-02";
   Sale order_returned "2024-05-03";
   Dashboard;
   Everything blank_form].

(** ** Further notions the statements use *)

(** The text after the last occurrence of a character ([cur] when there is
    none), and the texts in which a character does not occur. *)
Fixpoint after_last (c : ascii) (cur s : string) : string :=
  match s with
  | EmptyString => cur
  | String x r => if Ascii.eqb x c then after_last c r r else after_last c cur r
  end.

Fixpoint lacks (c : ascii) (s : string) : Prop :=
  match s with
  | EmptyString => True
  | String x r => x <> c /\ lacks c r
  end.

(** Two texts equal up to the case of the letters A-Z. *)
Fixpoint same_ci (s t : string) : bool :=
  match s, t with
  | EmptyString, EmptyString => true
  | String a s', String b t' => Sqlite.ci_eqb a b && same_ci s' t'
  | _, _ => false
  end.

(** The sales of one day, and what the chart should say of them. *)
Definition sales_on (d : string) (rows : list Sales.row) : list Sales.row :=
  List.filter (fun r => String.eqb (Sales.date r) d) rows.

Definition day_entry (d : string) (days : list (string * Q * Z)) : option (Q * Z) :=
  (fun e => (snd (fst e), snd e)) <$> find (fun e => String.eqb (fst (fst e)) d) days.

Definition before (a b : string * Q * Z) : Prop :=
  String.compare (fst (fst a)) (fst (fst b)) = Lt.

(** Ids are positive, as [AUTOINCREMENT] makes them. *)
Definition ids_nonneg {A : Type} (key : A -> Z) (rows : list A) : Prop :=
  Forall (fun r => 0 <= key r) rows.

(** What the chart should say of the sales of one day: the total of their
    [p_fayda], as [SUM] adds it, and their number; nothing when there is
    none. *)
Definition day_total (rs : list Sales.row) : option (Q * Z) :=
  (fun t => (t, Z.of_nat (length rs))) <$> Sqlite.sum (map Sales.p_fayda rs).

(** * Verification *)

(** ** The formulas *)

Section Formulas.

Local Open Scope Q_scope.

#[export] Instance tot_livraison_proper :
  Proper (Qeq ==> Qeq ==> Qeq) tot_livraison.
Proof. intros w w' Hw d d' Hd. unfold tot_livraison. now rewrite Hw, Hd. Qed.

#[export] Instance p_fayda_proper :
  Proper (Qeq ==> Qeq ==> Qeq ==> Qeq) p_fayda.
Proof.
  intros s s' Hs l l' Hl p p' Hp. unfold p_fayda. now rewrite Hs, Hl, Hp.
Qed.

#[export] Instance fayda_safia_proper : Proper (Qeq ==> Qeq) fayda_safia.
Proof. intros p p' Hp. unfold fayda_safia. now rewrite Hp. Qed.

(** The chain of the three formulas, in one expression. *)
Lemma net_profit_closed_form (S w d P : Q) :
  fayda_safia (p_fayda S (tot_livraison w d) P) == S - 50 * w - d - P - 500.
Proof. unfold fayda_safia, p_fayda, tot_livraison. ring. Qed.

(** On whole numbers the formulas are the integer computations. *)
Lemma formulas_on_integers (w d S L P pf : Z) :
  tot_livraison (inject_Z w) (inject_Z d) == inject_Z (w * 50 + d)
  /\ p_fayda (inject_Z S) (inject_Z L) (inject_Z P) == inject_Z (S - L - P)
  /\ fayda_safia (inject_Z pf) == inject_Z (pf - 500).
Proof.
  unfold tot_livraison, p_fayda, fayda_safia, Qminus.
  repeat split;
    rewrite ?inject_Z_plus, ?inject_Z_mult, ?inject_Z_opp;
    unfold Z.sub; rewrite ?inject_Z_plus, ?inject_Z_opp; reflexivity.
Qed.

(** C2. For all numeric inputs [tot_livraison w d] is [w*50 + d],
    [p_fayda S L P] is [(S - L) - P] and [fayda_safia pf] is [pf - 500];
    a negative result is returned as it is and nothing is rounded; the
    scenario purchase 1000, weight 2, delivery 200, selling 3000 gives
    300, 1700 and 1200. *)
Theorem formulas_spec :
  (forall w d : Q, tot_livraison w d = w * 50 + d)
  /\ (forall S L P : Q, p_fayda S L P = (S - L) - P)
  /\ (forall pf : Q, fayda_safia pf = pf - 500)
  /\ (forall S w d P : Q,
        fayda_safia (p_fayda S (tot_livraison w d) P)
        == S - 50 * w - d - P - 500)
  /\ (p_fayda 100 300 1000 = -1200 /\ fayda_safia (-1200) = -1700
      /\ fayda_safia 0 = -500 /\ tot_livraison (-1) 0 = -50)
  /\ (tot_livraison 0.5 0.25 == 25.25 /\ p_fayda 10.75 0.5 0.125 == 10.125
      /\ fayda_safia 0.001 == -499.999)
  /\ (tot_livraison 2 200 = 300 /\ p_fayda 3000 300 1000 = 1700
      /\ fayda_safia 1700 = 1200).
Proof.
  split; [reflexivity|]. split; [reflexivity|]. split; [reflexivity|].
  split; [intros; apply net_profit_closed_form|].
  repeat split; vm_compute; reflexivity.
Qed.

End Formulas.

(** ** The ledger service: what [add_sale] does on each path *)

Section Ledger.

Implicit Types (form : Form) (self : App) (today : string).

Lemma refresh_sales_conn form self :
  conn (fst (refresh_sales form self)) = conn self.
Proof.
  unfold refresh_sales.
  repeat match goal with |- context [if ?b then _ else _] => destruct b end;
    reflexivity.
Qed.

Lemma refresh_sales_shown form self :
  snd (refresh_sales form self) = []
  \/ snd (refresh_sales form self) = [date_error_from]
  \/ snd (refresh_sales form self) = [date_error_to].
Proof.
  unfold refresh_sales.
  repeat match goal with |- context [if ?b then _ else _] => destruct b end;
    simpl; auto.
Qed.

Lemma add_sale_accepts form today self cid pid q dl prod y :
  accepted form today self cid pid q dl prod y ->
  let db := recorded form today self cid pid q dl prod y in
  add_sale form today self
  = (fst (refresh_sales form (with_conn self db)),
     showinfo "Sale Added"
       ("Invoice: " +:+ invoice_text y (next_seq (sales (conn self)) y))
     :: snd (refresh_sales form (with_conn self db))).
Proof.
  intros [Hc Hp Hq Hd Hr Hy Hf Hu]. unfold add_sale.
  rewrite Hc, Hp, Hq, Hd, Hr. unfold generate_invoice_no. simpl default.
  destruct (Py.fromisoformat today) as [d|]; simpl in Hy; [|discriminate].
  injection Hy as ->. unfold insert_sale. simpl Sales.client_id.
  simpl Sales.product_id. simpl Sales.quantity. rewrite Hf. simpl negb.
  simpl Sales.invoice_no. rewrite Hu. cbv iota.
  unfold apply_updates, recorded. cbn [clients products sales sales_sequence].
  destruct (refresh_sales form _) as [self' shown]. reflexivity.
Qed.

Lemma add_sale_inv form today self self' shown :
  add_sale form today self = (self', shown) ->
  sale_added shown = true ->
  exists cid pid q dl prod y,
    accepted form today self cid pid q dl prod y
    /\ conn self' = recorded form today self cid pid q dl prod y.
Proof.
  unfold add_sale. intros H Hs.
  destruct (client_map self !! sale_client form) as [cid|] eqn:Hc;
    [|inversion H; subst; discriminate].
  destruct (product_map self !! sale_product form) as [pid|] eqn:Hp;
    [|inversion H; subst; discriminate].
  destruct (read_qty form) as [q|] eqn:Hq; [|inversion H; subst; discriminate].
  destruct (read_delivery form) as [dl|] eqn:Hd;
    [|inversion H; subst; discriminate].
  destruct (find_product (conn self) pid) as [prod|] eqn:Hr;
    [|inversion H; subst; discriminate].
  unfold generate_invoice_no in H. simpl default in H.
  destruct (Py.fromisoformat today) as [d|] eqn:Hy;
    [|inversion H; subst; discriminate].
  unfold insert_sale in H. simpl Sales.client_id in H.
  simpl Sales.product_id in H. simpl Sales.quantity in H.
  simpl Sales.invoice_no in H.
  destruct (Sqlite.fits_int64 cid && Sqlite.fits_int64 pid && Sqlite.fits_int64 q)
    eqn:Hf; simpl negb in H; cbv iota in H;
    [|inversion H; subst; discriminate].
  destruct (invoice_taken (conn self) _) eqn:Hu;
    [inversion H; subst; discriminate|].
  exists cid, pid, q, dl, prod, (Py.year d). split.
  - constructor; auto. rewrite Hy. reflexivity.
  - match type of H with
    | (let '(_, _) := refresh_sales ?f ?a in _) = _ =>
        pose proof (refresh_sales_conn f a) as Hconn;
        destruct (refresh_sales f a) as [s1 sh1]
    end.
    inversion H; subst. simpl in Hconn. rewrite Hconn. reflexivity.
Qed.

Lemma add_sale_rejects form today self self' shown :
  add_sale form today self = (self', shown) ->
  sale_added shown = false ->
  self' = self /\ exists e, shown = [e].
Proof.
  unfold add_sale. intros H Hs.
  repeat match type of H with
         | match ?x with _ => _ end = _ => destruct x
         end;
    try (inversion H; subst; eauto; fail).
  inversion H; subst. discriminate.
Qed.

End Ledger.

(** ** Claims about [add_sale] *)

Lemma Forall2_map_self {A} (R : A -> A -> Prop) (f : A -> A) (l : list A) :
  (forall x, R x (f x)) -> Forall2 R l (map f l).
Proof. intros H. induction l; simpl; constructor; auto. Qed.

Lemma update_client_cases amount id c :
  (Clients.client_id c = id
   /\ update_client amount id c
      = Clients.mk (Clients.client_id c) (Clients.name c) (Clients.phone c)
          (Clients.address c) (Clients.city c)
          (Clients.total_spent c + amount) (Clients.total_orders c + 1))
  \/ (Clients.client_id c <> id /\ update_client amount id c = c).
Proof.
  unfold update_client. destruct (Z.eqb_spec (Clients.client_id c) id); auto.
Qed.









(** The key maps [refresh_sales] builds hold only keys of rows of the
    tables, so a key that no row carries is not in them. *)
Lemma key_map_lookup {A : Type} (key : A -> string) (id : A -> Z)
    (rows : list A) (k : string) (v : Z) :
  foldl (fun m r => <[key r := id r]> m) (∅ : gmap string Z) rows !! k = Some v ->
  exists r, r ∈ rows /\ id r = v /\ key r = k.
Proof.
  assert (G : forall (m : gmap string Z),
             foldl (fun m r => <[key r := id r]> m) m rows !! k = Some v ->
             m !! k = Some v \/ exists r, r ∈ rows /\ id r = v /\ key r = k).
  { induction rows as [|r rows IH]; intros m H; simpl in H; [auto|].
    destruct (IH _ H) as [Hm|(c & Hin & Hid & Hk)].
    - destruct (decide (key r = k)) as [E|E].
      + rewrite <- E, lookup_insert_eq in Hm. injection Hm as Hm.
        right. exists r. split; [left|]. auto.
      + rewrite lookup_insert_ne in Hm by exact E. auto.
    - right. exists c. split; [right|]; auto. }
  intros H. destruct (G _ H) as [Hm|Hc]; [|exact Hc].
  rewrite lookup_empty in Hm. discriminate.
Qed.

Lemma build_client_map_lookup (rows : list Clients.row) (k : string) (id : Z) :
  build_client_map rows !! k = Some id ->
  exists c, c ∈ rows /\ Clients.client_id c = id
            /\ map_key (Clients.name c) (Clients.client_id c) = k.
Proof. apply key_map_lookup. Qed.

Lemma build_product_map_lookup (rows : list Products.row) (k : string) (id : Z) :
  build_product_map rows !! k = Some id ->
  exists p, p ∈ rows /\ Products.product_id p = id
            /\ map_key (Products.name p) (Products.product_id p) = k.
Proof. apply key_map_lookup. Qed.

Lemma refresh_sales_maps form self :
  client_map (fst (refresh_sales form self)) = build_client_map (clients (conn self))
  /\ product_map (fst (refresh_sales form self))
     = build_product_map (products (conn self)).
Proof.
  unfold refresh_sales.
  repeat match goal with |- context [if ?b then _ else _] => destruct b end;
    simpl; auto.
Qed.



(** C9. When the quantity entry is empty the quantity read is 1: the call
    never ends on the "Quantity must be integer" dialog and, the rest of
    the request being in order, the sale is recorded with quantity 1. *)
Theorem add_sale_empty_quantity (form : Form) (today : string) (self : App) :
  sale_qty form = "" ->
  read_qty form = Some 1
  /\ snd (add_sale form today self)
     <> [showerror "Validation" "Quantity must be integer"]
  /\ forall cid pid dl prod y,
       client_map self !! sale_client form = Some cid ->
       product_map self !! sale_product form = Some pid ->
       read_delivery form = Some dl ->
       find_product (conn self) pid = Some prod ->
       Py.year <$> Py.fromisoformat today = Some y ->
       Sqlite.fits_int64 cid && Sqlite.fits_int64 pid = true ->
       invoice_taken (conn self)
         (invoice_text y (next_seq (sales (conn self)) y)) = false ->
       sale_added (snd (add_sale form today self)) = true
       /\ exists row,
            sales (conn (fst (add_sale form today self)))
            = sales (conn self) ++ [row]
            /\ Sales.quantity row = 1.
Proof.
  intros Hq.
  assert (Hread : read_qty form = Some 1) by (unfold read_qty; now rewrite Hq).
  split; [exact Hread|]. split.
  - unfold add_sale. rewrite Hread.
    repeat match goal with
           | |- context [match ?x with _ => _ end] => destruct x
           end; simpl; congruence.
  - intros cid pid dl prod y Hc Hp Hd Hr Hy Hf Hu.
    assert (Hacc : accepted form today self cid pid 1 dl prod y).
    { constructor; auto. rewrite Hf. reflexivity. }
    rewrite (add_sale_accepts _ _ _ _ _ _ _ _ _ Hacc). cbv zeta. simpl fst.
    simpl snd. split; [reflexivity|]. rewrite refresh_sales_conn.
    eexists. split; reflexivity.
Qed.

Lemma add_sale_empty_quantity_witness :
  snd (add_sale order_teapot "2024-05-01" shop_app)
  <> [showerror "Validation" "Quantity must be integer"]
  /\ exists row,
       sales (conn (fst (add_sale order_teapot "2024-05-01" shop_app)))
       = sales (conn shop_app) ++ [row]
       /\ Sales.quantity row = 1.
Proof.
  destruct (add_sale_empty_quantity order_teapot "2024-05-01" shop_app)
    as (_ & Hno & Hrec); [reflexivity|].
  split; [exact Hno|].
  apply (Hrec 2 2 None (Products.mk 2 "Teapot" 400 None None None 0) 2024);
    vm_compute; reflexivity.
Defined.

(** C10. A product whose [weight], [default_delivery_price] or
    [selling_price] is NULL does not make [add_sale] fail: the missing
    figure is taken as 0 in the snapshot and in the derived figures, and a
    product without selling price gives a sale with selling price 0 that
    leaves the client's [total_spent] where it was. *)
Theorem add_sale_null_figures (form : Form) (today : string) (self : App)
    (cid pid q : Z) (dl : option Q) (prod : Products.row) (y : Z) :
  accepted form today self cid pid q dl prod y ->
  let self' := fst (add_sale form today self) in
  sale_added (snd (add_sale form today self)) = true
  /\ exists row,
       sales (conn self') = sales (conn self) ++ [row]
       /\ (Products.weight prod = None -> Sales.weight row = 0%Q)
       /\ (Products.default_delivery_price prod = None -> dl = None ->
           Sales.delivery_price row = 0%Q)
       /\ (Products.selling_price prod = None ->
           Sales.selling_price row = 0%Q
           /\ Forall2
                (fun old new =>
                   (Clients.total_spent new == Clients.total_spent old)%Q
                   /\ Clients.client_id new = Clients.client_id old)
                (clients (conn self)) (clients (conn self')))
       /\ Sales.tot_livraison row
          = tot_livraison (Sales.weight row) (Sales.delivery_price row)
       /\ Sales.p_fayda row
          = p_fayda (Sales.selling_price row) (Sales.tot_livraison row)
              (Products.purchase_price prod)
       /\ Sales.fayda_safia row = fayda_safia (Sales.p_fayda row).
Proof.
  intros Hacc self'. subst self'.
  rewrite (add_sale_accepts _ _ _ _ _ _ _ _ _ Hacc). cbv zeta. simpl fst.
  simpl snd. split; [reflexivity|]. rewrite refresh_sales_conn.
  eexists. split; [reflexivity|].
  cbn [recorded new_sale clients Sales.weight Sales.delivery_price
       Sales.selling_price Sales.tot_livraison Sales.p_fayda Sales.fayda_safia].
  split; [intros ->; reflexivity|].
  split; [intros -> ->; reflexivity|].
  split; [|auto].
  intros Hnull. rewrite Hnull. split; [reflexivity|].
  unfold with_conn, recorded. cbn [conn clients]. rewrite Hnull.
  apply Forall2_map_self. intros c.
  change (Py.or_Q None 0) with 0%Q.
  destruct (update_client_cases (0 * inject_Z q) cid c) as [[_ ->]|[_ ->]];
    cbn [Clients.total_spent Clients.client_id]; split; try reflexivity.
  rewrite Qmult_0_l. apply Qplus_0_r.
Qed.

Lemma add_sale_null_figures_witness :
  let r := add_sale order_teapot "2024-05-01" shop_app in
  sale_added (snd r) = true
  /\ map Sales.selling_price (sales (conn (fst r))) = [0%Q]
  /\ map Sales.weight (sales (conn (fst r))) = [0%Q]
  /\ map Clients.total_spent (clients (conn (fst r))) = [0%Q; 0%Q].
Proof.
  cbv zeta.
  destruct (add_sale_null_figures order_teapot "2024-05-01" shop_app
              2 2 1 None (Products.mk 2 "Teapot" 400 None None None 0) 2024)
    as (Hadded & _).
  - constructor; vm_compute; reflexivity.
  - split; [exact Hadded|]. repeat split; vm_compute; reflexivity.
Defined.

(** ** The dashboard *)

Section Dashboard.

Local Open Scope Q_scope.

Lemma fold_left_Qplus (values : list Q) (v : Q) :
  fold_left Qplus values v == v + total values.
Proof.
  revert v. induction values as [|x values IH]; intros v; simpl.
  - now rewrite Qplus_0_r.
  - rewrite IH. symmetry. apply Qplus_assoc.
Qed.

Lemma or_Q_zero (x : option Q) :
  Py.or_Q x 0 == default 0 x.
Proof.
  destruct x as [v|]; simpl; [|reflexivity].
  destruct (Qeq_bool v 0) eqn:E; [|reflexivity].
  symmetry. now apply Qeq_bool_eq.
Qed.

Lemma sum_or_zero (values : list Q) :
  Py.or_Q (Sqlite.sum values) 0 == total values.
Proof.
  rewrite or_Q_zero. destruct values as [|v values]; simpl; [reflexivity|].
  apply fold_left_Qplus.
Qed.

(** C7, as the code has it.  [refresh_dashboard] leaves the ledger alone and
    shows the number of sales, the sum over all sales of the gross profit
    [p_fayda] (not of the net profit [fayda_safia]) and the sum over all
    sales of [tot_livraison]; with no sale the three figures are 0. *)
Theorem refresh_dashboard_totals (self : App) :
  conn (refresh_dashboard self) = conn self
  /\ lbl_sales (refresh_dashboard self) = Z.of_nat (length (sales (conn self)))
  /\ lbl_profit (refresh_dashboard self)
     == total (map Sales.p_fayda (sales (conn self)))
  /\ lbl_delivery (refresh_dashboard self)
     == total (map Sales.tot_livraison (sales (conn self)))
  /\ forall cs ps seq cm pm tree n a b,
       let empty := mkApp (mkDB cs ps [] seq) cm pm tree n a b in
       lbl_sales (refresh_dashboard empty) = 0%Z
       /\ lbl_profit (refresh_dashboard empty) = 0
       /\ lbl_delivery (refresh_dashboard empty) = 0.
Proof.
  unfold refresh_dashboard. simpl.
  split; [reflexivity|]. split; [reflexivity|].
  split; [apply sum_or_zero|]. split; [apply sum_or_zero|].
  intros. repeat split.
Qed.

(** C7 as stated fails: after the scenario's sale the profit figure is the
    gross 1700, while the net profit of the ledger sums to 1200. *)
Lemma dashboard_profit_is_not_net :
  lbl_profit (refresh_dashboard shop_after_sale) = 1700
  /\ total (map Sales.fayda_safia (sales (conn shop_after_sale))) == 1200
  /\ ~ lbl_profit (refresh_dashboard shop_after_sale)
       == total (map Sales.fayda_safia (sales (conn shop_after_sale))).
Proof.
  split; [vm_compute; reflexivity|]. split; [vm_compute; reflexivity|].
  intros H. vm_compute in H. discriminate.
Qed.

End Dashboard.

(** ** The sales list *)

Section SalesList.

Lemma insert_desc_perm (j : Joined) (l : list Joined) :
  Permutation (insert_desc j l) (j :: l).
Proof.
  induction l as [|x l IH]; simpl; [reflexivity|].
  destruct (Sales.sale_id (sale x) <? Sales.sale_id (sale j)); [reflexivity|].
  rewrite IH. apply perm_swap.
Qed.

Lemma order_by_sale_id_desc_perm (l : list Joined) :
  Permutation (order_by_sale_id_desc l) l.
Proof.
  induction l as [|x l IH]; simpl; [reflexivity|].
  rewrite insert_desc_perm. now constructor.
Qed.

Lemma insert_desc_sorted (j : Joined) (l : list Joined) :
  StronglySorted newer_first l -> StronglySorted newer_first (insert_desc j l).
Proof.
  induction 1 as [|x l Hl IH Hx]; simpl.
  - repeat constructor.
  - destruct (Z.ltb_spec (Sales.sale_id (sale x)) (Sales.sale_id (sale j))) as [Hlt|Hge].
    + constructor; [constructor; assumption|].
      constructor; [unfold newer_first; lia|].
      eapply Forall_impl; [exact Hx|]. unfold newer_first. intros; lia.
    + constructor; [exact IH|].
      eapply Permutation_Forall; [symmetry; apply insert_desc_perm|].
      constructor; [unfold newer_first; lia | exact Hx].
Qed.

Lemma order_by_sale_id_desc_sorted (l : list Joined) :
  StronglySorted newer_first (order_by_sale_id_desc l).
Proof.
  induction l as [|x l IH]; simpl; [constructor|].
  now apply insert_desc_sorted.
Qed.

Lemma select_sales_elem (db : DB) (s df dt : string) (j : Joined) :
  j ∈ select_sales db s df dt
  <-> exists row, row ∈ sales db /\ j = join db row
                  /\ where_clause s df dt j = true.
Proof.
  unfold select_sales.
  rewrite (order_by_sale_id_desc_perm _).
  rewrite list_elem_of_In, filter_In, in_map_iff. split.
  - intros [(row & <- & Hin) Hw]. exists row.
    rewrite list_elem_of_In. auto.
  - intros (row & Hin & -> & Hw). split; [|exact Hw].
    exists row. rewrite <- list_elem_of_In. auto.
Qed.

(** Python's and SQLite's readings of a date text agree on valid dates. *)
Lemma fromisoformat_ymd (s : string) (d : Py.datetime) :
  Py.fromisoformat s = Some d ->
  Py.ymd s = Some (Py.year d, Py.month d, Py.day d)
  /\ 1 <= Py.year d /\ 1 <= Py.month d <= 12
  /\ 1 <= Py.day d <= Py.days_in_month (Py.year d) (Py.month d).
Proof.
  unfold Py.fromisoformat. destruct (Py.ymd s) as [[[y m] dd]|]; [|discriminate].
  destruct (_ && _) eqn:E; [|discriminate]. intros [= <-]. simpl.
  rewrite !andb_true_iff, !Z.leb_le in E. split; [reflexivity | lia].
Qed.




End SalesList.








(** ** Numbers as text *)

Ltac digit_cases d H :=
  assert (d = 0 \/ d = 1 \/ d = 2 \/ d = 3 \/ d = 4
          \/ d = 5 \/ d = 6 \/ d = 7 \/ d = 8 \/ d = 9) as H
    by (unfold is_digit in *; lia);
  repeat (destruct H as [H|H]); subst d.

Section Text.

Lemma digit_of_char (d : Z) : is_digit d -> Py.digit_of (Py.digit_char d) = Some d.
Proof. intros Hd. digit_cases d H; reflexivity. Qed.

Lemma digit_of_bound (c : ascii) (v : Z) : Py.digit_of c = Some v -> 0 <= v <= 9.
Proof.
  unfold Py.digit_of. destruct (_ && _)%N eqn:E; [|discriminate].
  intros [= <-]. apply andb_prop in E. destruct E as [E1 E2].
  apply N.leb_le in E1, E2. lia.
Qed.

Lemma digit_char_plain (d : Z) :
  is_digit d ->
  Py.is_space (Py.digit_char d) = false
  /\ Py.digit_char d <> "-"%char /\ Py.digit_char d <> "+"%char
  /\ Ascii.eqb (Py.digit_char d) "%" = false
  /\ Ascii.eqb (Py.digit_char d) "_" = false
  /\ Sqlite.lower (Py.digit_char d) = Py.digit_char d
  /\ Sqlite.ci_eqb "-" (Py.digit_char d) = false.
Proof. intros Hd. digit_cases d H; repeat split; discriminate. Qed.

Lemma digit_char_inj (d e : Z) :
  is_digit d -> is_digit e -> Py.digit_char d = Py.digit_char e -> d = e.
Proof.
  intros Hd He H. apply (f_equal Py.digit_of) in H.
  rewrite !digit_of_char in H by assumption. congruence.
Qed.

Lemma string_of_digits_app (a b : list Z) :
  Py.string_of_digits (a ++ b) = Py.string_of_digits a +:+ Py.string_of_digits b.
Proof. induction a as [|d a IH]; simpl; [reflexivity|]. now rewrite IH. Qed.

Lemma string_of_digits_length (ds : list Z) :
  String.length (Py.string_of_digits ds) = length ds.
Proof. induction ds as [|d ds IH]; simpl; [reflexivity|]. now rewrite IH. Qed.

Lemma string_of_digits_inj (a b : list Z) :
  Forall is_digit a -> Forall is_digit b ->
  Py.string_of_digits a = Py.string_of_digits b -> a = b.
Proof.
  intros Ha. revert b. induction Ha as [|d a Hd Ha IH]; intros b Hb H;
    destruct Hb as [|e b He Hb]; simpl in H; try discriminate; [reflexivity|].
  injection H as Hc Hr. f_equal; [now apply digit_char_inj | now apply IH].
Qed.

(** *** [str] writes the digits of its argument *)

Lemma digits_lsd_spec (fuel : nat) (n : Z) :
  0 <= n < 2 ^ Z.of_nat (S fuel) ->
  value_lsd (Py.digits_lsd (S fuel) n) = n
  /\ Forall is_digit (Py.digits_lsd (S fuel) n)
  /\ Py.digits_lsd (S fuel) n <> [].
Proof.
  revert n. induction fuel as [|fuel IH]; intros n Hn.
  - change (2 ^ Z.of_nat 1) with 2 in Hn. simpl.
    destruct (Z.ltb_spec n 10); [|lia].
    split; [unfold value_lsd; simpl; lia|].
    split; [repeat constructor; unfold is_digit; lia | discriminate].
  - change (Py.digits_lsd (S (S fuel)) n)
      with (if n <? 10 then [n]
            else n mod 10 :: Py.digits_lsd (S fuel) (n / 10)).
    destruct (Z.ltb_spec n 10) as [Hlt|Hge].
    + split; [unfold value_lsd; simpl; lia|].
      split; [repeat constructor; unfold is_digit; lia | discriminate].
    + assert (Hdiv : 0 <= n / 10 < 2 ^ Z.of_nat (S fuel)).
      { split; [apply Z.div_pos; lia|].
        apply Z.div_lt_upper_bound; [lia|].
        rewrite (Nat2Z.inj_succ (S fuel)), Z.pow_succ_r in Hn by lia. lia. }
      destruct (IH _ Hdiv) as (Hv & Hd & _).
      split; [|split; [|discriminate]].
      * cbn [value_lsd foldr]. fold (value_lsd (Py.digits_lsd (S fuel) (n / 10))).
        rewrite Hv. pose proof (Z.div_mod n 10). lia.
      * constructor; [|exact Hd]. unfold is_digit.
        pose proof (Z.mod_pos_bound n 10). lia.
Qed.

Lemma value_of_rev (ds : list Z) : value_of (rev ds) = value_lsd ds.
Proof.
  unfold value_of, value_lsd.
  rewrite <- (rev_involutive ds) at 2. now rewrite fold_left_rev_right.
Qed.

Lemma digits_of_spec (n : Z) :
  0 <= n ->
  Py.str_nonneg n = Py.string_of_digits (digits_of n)
  /\ value_of (digits_of n) = n
  /\ Forall is_digit (digits_of n)
  /\ digits_of n <> [].
Proof.
  intros Hn. unfold digits_of.
  assert (Hb : 0 <= n < 2 ^ Z.of_nat (S (Z.to_nat (Z.log2 n)))).
  { split; [exact Hn|]. rewrite Nat2Z.inj_succ, Z2Nat.id by apply Z.log2_nonneg.
    destruct (Z.eq_dec n 0) as [->|]; [reflexivity|].
    apply Z.log2_spec. lia. }
  destruct (digits_lsd_spec _ _ Hb) as (Hv & Hd & Hne).
  split; [reflexivity|]. split; [now rewrite value_of_rev|].
  split; [now apply Forall_rev|].
  intros E. apply Hne. apply (f_equal (@rev Z)) in E.
  now rewrite rev_involutive in E.
Qed.

End Text.

(** *** [int] reads back what [str] and [format] write *)

Section Reading.

Lemma append_assoc (a b c : string) : (a +:+ b) +:+ c = a +:+ (b +:+ c).
Proof.
  induction a as [|x a IH]; [reflexivity|].
  change (String x ((a +:+ b) +:+ c) = String x (a +:+ (b +:+ c))).
  now rewrite IH.
Qed.

Lemma append_length (a b : string) :
  String.length (a +:+ b) = (String.length a + String.length b)%nat.
Proof.
  induction a as [|x a IH]; [reflexivity|].
  change (S (String.length (a +:+ b)) = S (String.length a + String.length b)).
  now rewrite IH.
Qed.

Lemma digitpart_go_digits (ds : list Z) (acc : Z) (n : nat) :
  Forall is_digit ds ->
  Py.digitpart_go acc n (Py.string_of_digits ds)
  = (fold_left (fun a d => 10 * a + d) ds acc, (n + length ds)%nat, EmptyString).
Proof.
  intros Hds. revert acc n.
  induction Hds as [|d ds Hd Hds IH]; intros acc n; simpl.
  - now rewrite Nat.add_0_r.
  - rewrite (digit_of_char d Hd), IH. now rewrite Nat.add_succ_r.
Qed.

Lemma all_digits_digits (ds : list Z) :
  Forall is_digit ds -> ds <> [] ->
  Py.all_digits (Py.string_of_digits ds) = Some (value_of ds).
Proof.
  intros Hds Hne. destruct Hds as [|d ds Hd Hds]; [contradiction|].
  unfold Py.all_digits, Py.digitpart. simpl.
  rewrite (digit_of_char d Hd), digitpart_go_digits by exact Hds.
  reflexivity.
Qed.

Lemma digitpart_go_nonneg (s : string) (acc : Z) (n : nat) :
  0 <= acc -> 0 <= (Py.digitpart_go acc n s).1.1.
Proof.
  revert acc n. induction s as [|c s IH].
  { intros acc n Hacc. exact Hacc. }
  intros acc n Hacc. simpl.
  destruct (Py.digit_of c) as [d|] eqn:Ec.
  - apply IH. apply digit_of_bound in Ec. lia.
  - destruct (Ascii.eqb c "_"); [|exact Hacc].
    destruct s as [|c' s']; [exact Hacc|].
    destruct (Py.digit_of c') as [d|] eqn:Ec'; [|exact Hacc].
    (* the run goes on after the underscore *)
    specialize (IH acc n Hacc). simpl in IH. rewrite Ec' in IH. exact IH.
Qed.

Lemma all_digits_nonneg (s : string) (v : Z) :
  Py.all_digits s = Some v -> 0 <= v.
Proof.
  unfold Py.all_digits, Py.digitpart.
  destruct s as [|c s]; [discriminate|].
  destruct (Py.digit_of c) as [d|] eqn:Ec; [|discriminate].
  apply digit_of_bound in Ec.
  pose proof (digitpart_go_nonneg s d 1 ltac:(lia)) as Hgo.
  destruct (Py.digitpart_go d 1 s) as [[v' k] rest]. simpl in Hgo.
  destruct rest; [|discriminate]. intros [= <-]. exact Hgo.
Qed.

Lemma lstrip_no_hyphen (s : string) : no_hyphen s -> no_hyphen (Py.lstrip s).
Proof.
  induction s as [|c s IH]; simpl; [auto|]. intros [Hc Hs].
  destruct (Py.is_space c); [auto | simpl; auto].
Qed.

Lemma rstrip_no_hyphen (s : string) : no_hyphen s -> no_hyphen (Py.rstrip s).
Proof.
  induction s as [|c s IH]; simpl; [auto|]. intros [Hc Hs].
  specialize (IH Hs). destruct (Py.rstrip s).
  - destruct (Py.is_space c); simpl; auto.
  - simpl in *. tauto.
Qed.

Lemma int_nonneg (s : string) (v : Z) :
  no_hyphen s -> Py.int s = Some v -> 0 <= v.
Proof.
  intros Hs. unfold Py.int.
  assert (Hstrip : no_hyphen (Py.strip s))
    by (apply rstrip_no_hyphen, lstrip_no_hyphen, Hs).
  destruct (Py.strip s) as [|c r] eqn:E.
  { intros H. now apply all_digits_nonneg in H. }
  destruct Hstrip as [Hc _].
  destruct c as [[|] [|] [|] [|] [|] [|] [|] [|]];
    try (intros H; now apply all_digits_nonneg in H).
  exfalso. apply Hc. reflexivity.
Qed.

Lemma rstrip_digits (ds : list Z) :
  Forall is_digit ds -> Py.rstrip (Py.string_of_digits ds) = Py.string_of_digits ds.
Proof.
  induction 1 as [|d ds Hd Hds IH]; simpl; [reflexivity|].
  rewrite IH. destruct (digit_char_plain d Hd) as (-> & _).
  now destruct (Py.string_of_digits ds).
Qed.

Lemma strip_digits (ds : list Z) :
  Forall is_digit ds -> Py.strip (Py.string_of_digits ds) = Py.string_of_digits ds.
Proof.
  intros Hds. unfold Py.strip.
  assert (Hl : Py.lstrip (Py.string_of_digits ds) = Py.string_of_digits ds).
  { destruct Hds as [|d ds Hd Hds]; simpl; [reflexivity|].
    now destruct (digit_char_plain d Hd) as (-> & _). }
  rewrite Hl. now apply rstrip_digits.
Qed.

Lemma int_digits (ds : list Z) :
  Forall is_digit ds -> ds <> [] ->
  Py.int (Py.string_of_digits ds) = Some (value_of ds).
Proof.
  intros Hds Hne. unfold Py.int. rewrite strip_digits by exact Hds.
  rewrite <- (all_digits_digits ds Hds Hne).
  destruct Hds as [|d ds Hd Hds]; [contradiction|].
  simpl Py.string_of_digits. digit_cases d H; reflexivity.
Qed.

End Reading.

Section Writing.

Lemma zeros_digits (k : nat) : Py.zeros k = Py.string_of_digits (repeat 0 k).
Proof. induction k as [|k IH]; simpl; [reflexivity|]. now rewrite IH. Qed.

Lemma value_of_zeros (k : nat) (ds : list Z) :
  value_of (repeat 0 k ++ ds) = value_of ds.
Proof.
  unfold value_of. rewrite fold_left_app. f_equal.
  induction k as [|k IH]; simpl; [reflexivity | exact IH].
Qed.

Lemma no_hyphen_digits (ds : list Z) :
  Forall is_digit ds -> no_hyphen (Py.string_of_digits ds).
Proof.
  induction 1 as [|d ds Hd Hds IH]; simpl; [exact I|].
  split; [apply (digit_char_plain d Hd) | exact IH].
Qed.

Lemma Forall_zeros (k : nat) : Forall is_digit (repeat 0 k).
Proof. induction k; simpl; constructor; [unfold is_digit; lia | assumption]. Qed.

(** The digits [format(n, "03d")] writes for [n] not negative. *)
Lemma format_03d_digits (n : Z) :
  0 <= n ->
  Py.format_03d n
  = Py.string_of_digits (repeat 0 (3 - length (digits_of n)) ++ digits_of n).
Proof.
  intros Hn. destruct (digits_of_spec n Hn) as (Hstr & _).
  unfold Py.format_03d. rewrite Z.abs_eq by exact Hn.
  destruct (Z.ltb_spec n 0); [lia|].
  rewrite Hstr, string_of_digits_length, string_of_digits_app, zeros_digits.
  reflexivity.
Qed.

Lemma format_03d_spec (n : Z) :
  0 <= n ->
  Py.int (Py.format_03d n) = Some n
  /\ (3 <= String.length (Py.format_03d n))%nat
  /\ no_hyphen (Py.format_03d n).
Proof.
  intros Hn. destruct (digits_of_spec n Hn) as (_ & Hv & Hd & Hne).
  rewrite format_03d_digits by exact Hn.
  assert (Hall : Forall is_digit (repeat 0 (3 - length (digits_of n)) ++ digits_of n)).
  { apply Forall_app. split; [apply Forall_zeros | exact Hd]. }
  split; [|split].
  - rewrite int_digits; [now rewrite value_of_zeros, Hv | exact Hall |].
    destruct (digits_of n); [contradiction|]. now destruct (repeat _ _).
  - rewrite string_of_digits_length, length_app, repeat_length. lia.
  - now apply no_hyphen_digits.
Qed.

Lemma str_digits (n : Z) :
  0 <= n -> Py.str n = Py.string_of_digits (digits_of n).
Proof.
  intros Hn. unfold Py.str. destruct (Z.ltb_spec n 0); [lia|].
  apply digits_of_spec, Hn.
Qed.

Lemma int_str (n : Z) : 0 <= n -> Py.int (Py.str n) = Some n.
Proof.
  intros Hn. destruct (digits_of_spec n Hn) as (_ & Hv & Hd & Hne).
  rewrite str_digits, int_digits by assumption. now rewrite Hv.
Qed.

Lemma digits_of_inj (m n : Z) :
  0 <= m -> 0 <= n -> digits_of m = digits_of n -> m = n.
Proof.
  intros Hm Hn E.
  destruct (digits_of_spec m Hm) as (_ & <- & _).
  destruct (digits_of_spec n Hn) as (_ & <- & _).
  now rewrite E.
Qed.

(** A number with [k] digits lies between [10^(k-1)] and [10^k]. *)
Lemma digits_lsd_length (fuel : nat) (n : Z) :
  0 < n < 2 ^ Z.of_nat (S fuel) ->
  10 ^ (Z.of_nat (length (Py.digits_lsd (S fuel) n)) - 1) <= n
  /\ n < 10 ^ Z.of_nat (length (Py.digits_lsd (S fuel) n)).
Proof.
  revert n. induction fuel as [|fuel IH]; intros n Hn.
  - change (2 ^ Z.of_nat 1) with 2 in Hn. simpl.
    destruct (Z.ltb_spec n 10); [|lia]. simpl. lia.
  - change (Py.digits_lsd (S (S fuel)) n)
      with (if n <? 10 then [n]
            else n mod 10 :: Py.digits_lsd (S fuel) (n / 10)).
    destruct (Z.ltb_spec n 10) as [Hlt|Hge]; [simpl; lia|].
    assert (Hdiv : 0 < n / 10 < 2 ^ Z.of_nat (S fuel)).
    { split; [apply Z.div_str_pos; lia|].
      apply Z.div_lt_upper_bound; [lia|].
      rewrite (Nat2Z.inj_succ (S fuel)), Z.pow_succ_r in Hn by lia. lia. }
    destruct (IH _ Hdiv) as [Hlo Hhi].
    set (l := Py.digits_lsd (S fuel) (n / 10)) in *.
    assert (Hlen : (1 <= length l)%nat).
    { destruct l eqn:El; [|simpl; lia].
      subst l. simpl in El. destruct (n / 10 <? 10); discriminate. }
    cbn [length]. rewrite Nat2Z.inj_succ.
    replace (Z.succ (Z.of_nat (length l)) - 1)
      with (Z.succ (Z.of_nat (length l) - 1)) by lia.
    rewrite !Z.pow_succ_r by lia.
    pose proof (Z.div_mod n 10). pose proof (Z.mod_pos_bound n 10). lia.
Qed.

Lemma str_year_length (y : Z) :
  1000 <= y <= 9999 -> String.length (Py.str y) = 4%nat.
Proof.
  intros Hy. rewrite str_digits by lia. rewrite string_of_digits_length.
  unfold digits_of. rewrite length_rev.
  assert (Hb : 0 < y < 2 ^ Z.of_nat (S (Z.to_nat (Z.log2 y)))).
  { split; [lia|]. rewrite Nat2Z.inj_succ, Z2Nat.id by apply Z.log2_nonneg.
    apply Z.log2_spec. lia. }
  destruct (digits_lsd_length _ _ Hb) as [Hlo Hhi].
  set (k := length _) in *.
  assert (Hk : (k < 5)%nat).
  { destruct (Nat.lt_ge_cases k 5) as [?|Hge]; [assumption|].
    assert (10 ^ 4 <= 10 ^ (Z.of_nat k - 1)) by (apply Z.pow_le_mono_r; lia).
    change (10 ^ 4) with 10000 in *. lia. }
  assert (Hk' : (3 < k)%nat).
  { destruct (Nat.lt_ge_cases 3 k) as [?|Hle]; [assumption|].
    assert (10 ^ Z.of_nat k <= 10 ^ 3) by (apply Z.pow_le_mono_r; lia).
    change (10 ^ 3) with 1000 in *. lia. }
  lia.
Qed.

End Writing.

(** ** The invoice sequencer *)

Section Sequencer.

Lemma last_segment_go_plain (s cur : string) :
  no_hyphen s -> Py.last_segment_go cur s = cur.
Proof.
  revert cur. induction s as [|c s IH]; intros cur; simpl; [reflexivity|].
  intros [Hc Hs]. destruct (Ascii.eqb_spec c "-"); [contradiction|].
  now apply IH.
Qed.

Lemma last_segment_go_app (a b cur : string) :
  no_hyphen b -> Py.last_segment_go cur (a +:+ String "-" b) = b.
Proof.
  intros Hb. revert cur. induction a as [|c a IH]; intros cur.
  - simpl. now apply last_segment_go_plain.
  - change (String c a +:+ String "-" b) with (String c (a +:+ String "-" b)).
    simpl. destruct (Ascii.eqb c "-"); apply IH.
Qed.

Lemma last_segment_no_hyphen (s cur : string) :
  (no_hyphen s -> no_hyphen cur) -> no_hyphen (Py.last_segment_go cur s).
Proof.
  revert cur. induction s as [|c s IH]; intros cur H; simpl; [now apply H|].
  destruct (Ascii.eqb_spec c "-") as [->|Hc]; apply IH; [auto|].
  intros Hs. apply H. simpl. auto.
Qed.

Lemma invoice_text_segment (y n : Z) :
  0 <= n -> Py.last_segment (invoice_text y n) = Py.format_03d n.
Proof.
  intros Hn.
  change (Py.last_segment_go (invoice_text y n)
            (("DZAIR-" +:+ Py.str y) +:+ String "-" (Py.format_03d n))
          = Py.format_03d n).
  apply last_segment_go_app, format_03d_spec, Hn.
Qed.

(** *** The pattern of a year matches the invoices of that year only *)

Lemma like_percent (t : string) : Sqlite.like "%" t = true.
Proof.
  induction t as [|c t IH]; [reflexivity|].
  simpl in *. exact IH.
Qed.

Lemma like_digits (a b : list Z) (t : string) :
  Forall is_digit a -> Forall is_digit b ->
  Sqlite.like (Py.string_of_digits a +:+ "-%")
    (Py.string_of_digits b +:+ String "-" t) = true
  <-> a = b.
Proof.
  intros Ha. revert b. induction Ha as [|d a Hd Ha IH]; intros b Hb.
  - destruct Hb as [|e b He Hb].
    + split; [reflexivity|]. intros _.
      change (Sqlite.like "%" t = true). apply like_percent.
    + split; [|discriminate].
      change (Sqlite.ci_eqb "-" (Py.digit_char e)
              && Sqlite.like "%" (Py.string_of_digits b +:+ String "-" t) = true
              -> [] = e :: b).
      destruct (digit_char_plain e He) as (_ & _ & _ & _ & _ & _ & ->).
      discriminate.
  - destruct (digit_char_plain d Hd) as (_ & Hm & _ & Hpc & Hus & Hlow & _).
    assert (Hstep : forall text,
               Sqlite.like (Py.string_of_digits (d :: a) +:+ "-%") text
               = match text with
                 | String c text' =>
                     Sqlite.ci_eqb (Py.digit_char d) c
                     && Sqlite.like (Py.string_of_digits a +:+ "-%") text'
                 | EmptyString => false
                 end).
    { intros text.
      change (Py.string_of_digits (d :: a) +:+ "-%")
        with (String (Py.digit_char d) (Py.string_of_digits a +:+ "-%")).
      cbn [Sqlite.like]. rewrite Hpc, Hus. reflexivity. }
    rewrite Hstep. destruct Hb as [|e b He Hb].
    + split; [|discriminate].
      change (Py.string_of_digits [] +:+ String "-" t) with (String "-" t).
      unfold Sqlite.ci_eqb. rewrite Hlow.
      destruct (Ascii.eqb_spec (Py.digit_char d) (Sqlite.lower "-")) as [E|_];
        [|discriminate].
      exfalso. apply Hm. exact E.
    + change (Py.string_of_digits (e :: b) +:+ String "-" t)
        with (String (Py.digit_char e) (Py.string_of_digits b +:+ String "-" t)).
      destruct (digit_char_plain e He) as (_ & _ & _ & _ & _ & Hlow' & _).
      unfold Sqlite.ci_eqb. rewrite Hlow, Hlow', andb_true_iff, IH by exact Hb.
      rewrite Ascii.eqb_eq. split.
      * intros [Hc ->]. f_equal. now apply digit_char_inj.
      * intros [= -> ->]. auto.
Qed.

Lemma invoice_pattern_matches (y y' n : Z) :
  0 <= y -> 0 <= y' ->
  Sqlite.like (invoice_pattern y) (invoice_text y' n) = true <-> y = y'.
Proof.
  intros Hy Hy'. unfold invoice_pattern, invoice_text.
  rewrite !str_digits by assumption.
  destruct (digits_of_spec y Hy) as (_ & _ & Hd & _).
  destruct (digits_of_spec y' Hy') as (_ & _ & Hd' & _).
  change ("-" +:+ Py.format_03d n) with (String "-" (Py.format_03d n)).
  change (Sqlite.like (Py.string_of_digits (digits_of y) +:+ "-%")
            (Py.string_of_digits (digits_of y') +:+ String "-" (Py.format_03d n))
          = true <-> y = y').
  rewrite like_digits by assumption. split.
  - now apply digits_of_inj.
  - now intros ->.
Qed.

End Sequencer.

Section NextSeq.

Lemma last_by_sale_id_spec (rows : list Sales.row) :
  match last_by_sale_id rows with
  | None => rows = []
  | Some r =>
      r ∈ rows /\ forall r', r' ∈ rows -> Sales.sale_id r' <= Sales.sale_id r
  end.
Proof.
  induction rows as [|x rows IH]; simpl; [reflexivity|].
  destruct (last_by_sale_id rows) as [r|].
  - destruct IH as [Hin Hmax].
    destruct (Z.ltb_spec (Sales.sale_id x) (Sales.sale_id r)).
    + split; [now right|]. intros r' Hr'.
      apply elem_of_cons in Hr' as [->|Hr']; [lia | auto].
    + split; [now left|]. intros r' Hr'.
      apply elem_of_cons in Hr' as [->|Hr']; [lia|].
      specialize (Hmax _ Hr'). lia.
  - subst rows. split; [now left|]. intros r' Hr'.
    apply elem_of_cons in Hr' as [->|Hr']; [lia|].
    now apply elem_of_nil in Hr'.
Qed.

Lemma last_by_sale_id_newest (rows : list Sales.row) (r : Sales.row) :
  (forall r', r' ∈ rows -> Sales.sale_id r' < Sales.sale_id r) ->
  last_by_sale_id (rows ++ [r]) = Some r.
Proof.
  induction rows as [|x rows IH]; intros H; simpl; [reflexivity|].
  rewrite IH by (intros r' Hr'; apply H; now right).
  assert (Sales.sale_id x < Sales.sale_id r) by (apply H; now left).
  destruct (Z.ltb_spec (Sales.sale_id x) (Sales.sale_id r)); [reflexivity|lia].
Qed.

Lemma max_sale_id_ge (rows : list Sales.row) (r : Sales.row) :
  r ∈ rows -> Sales.sale_id r <= max_sale_id rows.
Proof.
  induction rows as [|x rows IH]; intros H; [now apply elem_of_nil in H|].
  change (max_sale_id (x :: rows))
    with (Z.max (Sales.sale_id x) (max_sale_id rows)).
  apply elem_of_cons in H as [->|H]; [apply Z.le_max_l|].
  specialize (IH H). lia.
Qed.

Lemma next_sale_id_fresh (db : DB) (r : Sales.row) :
  r ∈ sales db -> Sales.sale_id r < next_sale_id db.
Proof.
  intros H. apply max_sale_id_ge in H. unfold next_sale_id. lia.
Qed.

Lemma invoices_like_app (pattern : string) (rows : list Sales.row) (r : Sales.row) :
  invoices_like pattern (rows ++ [r])
  = invoices_like pattern rows
    ++ (if Sqlite.like pattern (Sales.invoice_no r) then [r] else []).
Proof.
  unfold invoices_like. rewrite filter_app. f_equal.
  destruct (Sqlite.like pattern (Sales.invoice_no r)) eqn:E.
  - now rewrite filter_cons_True.
  - rewrite filter_cons_False; [reflexivity|]. rewrite E. discriminate.
Qed.

Lemma next_seq_pos (rows : list Sales.row) (y : Z) : 1 <= next_seq rows y.
Proof.
  unfold next_seq. destruct (last_by_sale_id _) as [r|]; [|lia].
  destruct (Py.int _) as [n|] eqn:E; [|lia].
  apply int_nonneg in E; [lia|].
  apply last_segment_no_hyphen. auto.
Qed.

(** One more sale of year [y], numbered [n], moves the sequence of [y] to
    [n + 1] and leaves the sequence of every other year alone. *)
Lemma next_seq_append (rows : list Sales.row) (r : Sales.row) (y n : Z) :
  0 <= y -> 0 <= n ->
  Sales.invoice_no r = invoice_text y n ->
  (forall r', r' ∈ rows -> Sales.sale_id r' < Sales.sale_id r) ->
  next_seq (rows ++ [r]) y = n + 1
  /\ forall y', 0 <= y' -> y' <> y -> next_seq (rows ++ [r]) y' = next_seq rows y'.
Proof.
  intros Hy Hn Hinv Hnew. split.
  - unfold next_seq. rewrite invoices_like_app, Hinv.
    rewrite (proj2 (invoice_pattern_matches y y n Hy Hy) eq_refl).
    rewrite last_by_sale_id_newest.
    + rewrite Hinv, invoice_text_segment by exact Hn.
      now rewrite (proj1 (format_03d_spec n Hn)).
    + intros r' Hr'. apply Hnew.
      unfold invoices_like in Hr'. now apply list_elem_of_filter in Hr' as [_ ?].
  - intros y' Hy' Hne. unfold next_seq. rewrite invoices_like_app, Hinv.
    destruct (Sqlite.like (invoice_pattern y') (invoice_text y n)) eqn:E.
    + apply invoice_pattern_matches in E; [congruence | assumption..].
    + now rewrite app_nil_r.
Qed.

Lemma two_digits_bound (a b : ascii) (v : Z) :
  Py.two_digits a b = Some v -> 0 <= v <= 99.
Proof.
  unfold Py.two_digits.
  destruct (Py.digit_of a) eqn:Ea; [|discriminate].
  destruct (Py.digit_of b) eqn:Eb; [|discriminate].
  intros [= <-]. apply digit_of_bound in Ea, Eb. lia.
Qed.

Lemma four_digits_bound (a b c d : ascii) (v : Z) :
  Py.four_digits a b c d = Some v -> 0 <= v <= 9999.
Proof.
  unfold Py.four_digits.
  destruct (Py.two_digits a b) eqn:Ea; [|discriminate].
  destruct (Py.two_digits c d) eqn:Eb; [|discriminate].
  intros [= <-]. apply two_digits_bound in Ea, Eb. lia.
Qed.

Lemma fromisoformat_year (s : string) (d : Py.datetime) :
  Py.fromisoformat s = Some d -> 1 <= Py.year d <= 9999.
Proof.
  intros H. destruct (fromisoformat_ymd _ _ H) as (Hy & ? & _).
  split; [assumption|].
  unfold Py.ymd in Hy.
  repeat match type of Hy with
         | match ?x with _ => _ end = _ =>
             let E := fresh "E" in destruct x eqn:E; try discriminate
         end.
  match goal with
  | F : Py.four_digits _ _ _ _ = Some _ |- _ => apply four_digits_bound in F
  end.
  injection Hy as <- _ _. lia.
Qed.

End NextSeq.

(** C4, as the code has it.  For a valid reference date
    [generate_invoice_no] never raises and returns
    [DZAIR-<year>-<seq>]: the year of the date in plain decimal (between 1
    and 9999, four digits from 1000 on) and the sequence number padded with
    zeros to three digits at least, never cut.  The number is 1 when no
    invoice in [Sales] matches the pattern of the year; otherwise it is one
    more than the number read from the text after the last hyphen of the
    match with the greatest [sale_id], or 1 when that text is no number. *)
Theorem generate_invoice_no_spec (db : DB) (date_str : option string)
    (today : string) (d : Py.datetime) :
  Py.fromisoformat (default today date_str) = Some d ->
  let y := Py.year d in
  let matches := invoices_like (invoice_pattern y) (sales db) in
  exists seq,
    generate_invoice_no db date_str today
    = Py.Ret ("DZAIR-" +:+ Py.str y +:+ "-" +:+ Py.format_03d seq)
    /\ (1 <= y <= 9999 /\ Py.int (Py.str y) = Some y
        /\ (1000 <= y -> String.length (Py.str y) = 4%nat))
    /\ (1 <= seq /\ Py.int (Py.format_03d seq) = Some seq
        /\ (3 <= String.length (Py.format_03d seq))%nat)
    /\ (forall r, r ∈ matches
                  <-> r ∈ sales db
                      /\ Sqlite.like ("DZAIR-" +:+ Py.str y +:+ "-%")
                           (Sales.invoice_no r) = true)
    /\ (matches = [] -> seq = 1)
    /\ (forall last,
          last ∈ matches ->
          (forall r, r ∈ matches ->
                     Sales.sale_id r < Sales.sale_id last \/ r = last) ->
          seq = match Py.int (Py.last_segment (Sales.invoice_no last)) with
                | Some n => n + 1
                | None => 1
                end).
Proof.
  intros Hd y matches. exists (next_seq (sales db) y).
  pose proof (fromisoformat_year _ _ Hd) as Hy. fold y in Hy.
  pose proof (next_seq_pos (sales db) y) as Hseq.
  split; [unfold generate_invoice_no; now rewrite Hd|].
  split.
  { split; [exact Hy|]. split; [apply int_str; lia|].
    intros ?. apply str_year_length. lia. }
  split.
  { split; [exact Hseq|]. split; apply format_03d_spec; lia. }
  split.
  { intros r. unfold matches, invoices_like. rewrite list_elem_of_filter.
    unfold invoice_pattern. tauto. }
  unfold next_seq. fold matches.
  pose proof (last_by_sale_id_spec matches) as Hlast.
  destruct (last_by_sale_id matches) as [r|].
  - destruct Hlast as [Hin Hmax]. split.
    + intros E. rewrite E in Hin. now apply elem_of_nil in Hin.
    + intros last Hl Hstrict.
      destruct (Hstrict r Hin) as [Hlt| ->]; [|reflexivity].
      specialize (Hmax _ Hl). lia.
  - split; [reflexivity|]. intros last Hl. rewrite Hlast in Hl.
    now apply elem_of_nil in Hl.
Qed.

Lemma generate_invoice_no_spec_witness :
  exists seq,
    generate_invoice_no (conn january) None "2024-03-01"
    = Py.Ret ("DZAIR-" +:+ Py.str 2024 +:+ "-" +:+ Py.format_03d seq)
    /\ 1 <= seq.
Proof.
  destruct (generate_invoice_no_spec (conn january) None "2024-03-01"
              (Py.mkdate 2024 3 1)) as (seq & Hret & _ & (Hseq & _) & _).
  - vm_compute. reflexivity.
  - exists seq. split; [exact Hret | exact Hseq].
Defined.

(** C4 as stated fails on the year: for a reference date in the year 999
    the year part of the invoice number has three digits. *)
Lemma invoice_year_is_not_padded :
  Py.fromisoformat "0999-06-15" = Some (Py.mkdate 999 6 15)
  /\ generate_invoice_no shop (Some "0999-06-15") "2024-05-01"
     = Py.Ret "DZAIR-999-001"
  /\ String.length (Py.str 999) = 3%nat.
Proof. repeat split; vm_compute; reflexivity. Qed.

(** ** Runs of the application *)

Section Runs.

Lemma in_year_pos (y : Z) (row : Sales.row) : in_year y row -> 1 <= y.
Proof.
  unfold in_year. destruct (Py.fromisoformat (Sales.date row)) as [d|] eqn:E;
    [|discriminate].
  intros [= <-]. now apply fromisoformat_year in E.
Qed.

Lemma filter_in_year_nil (y : Z) (rows : list Sales.row) :
  y < 1 -> filter (in_year y) rows = [].
Proof.
  intros Hy. induction rows as [|r rows IH]; [reflexivity|].
  rewrite filter_cons_False; [exact IH|].
  intros H. apply in_year_pos in H. lia.
Qed.

(** What one action does to the [Sales] table: nothing, or one more row,
    newest of all, dated today and numbered next in its year. *)
Lemma step_sales (a : action) (self : App) :
  (sale_added (snd (step a self)) = false
   /\ sales (conn (fst (step a self))) = sales (conn self))
  \/ (sale_added (snd (step a self)) = true
      /\ exists row y,
           sales (conn (fst (step a self))) = sales (conn self) ++ [row]
           /\ in_year y row
           /\ Sales.invoice_no row = invoice_text y (next_seq (sales (conn self)) y)
           /\ forall r, r ∈ sales (conn self) -> Sales.sale_id r < Sales.sale_id row).
Proof.
  destruct a as [form today|form|]; simpl.
  - destruct (add_sale form today self) as [self' shown] eqn:E.
    cbn [fst snd]. destruct (sale_added shown) eqn:Hs.
    + right. split; [reflexivity|].
      destruct (add_sale_inv _ _ _ _ _ E Hs)
        as (cid & pid & q & dl & prod & y & Hacc & ->).
      eexists _, y. split; [reflexivity|]. destruct Hacc.
      split; [exact acc_date0|]. split; [reflexivity|].
      intros r Hr. now apply next_sale_id_fresh.
    + left. split; [reflexivity|].
      now destruct (add_sale_rejects _ _ _ _ _ E Hs) as [-> _].
  - left. rewrite refresh_sales_conn. split; [|reflexivity].
    destruct (refresh_sales_shown form self) as [->|[->| ->]]; reflexivity.
  - left. split; reflexivity.
Qed.

Lemma run_sales (actions : list action) (self : App) :
  exists new_rows,
    sales (conn (run actions self)) = sales (conn self) ++ new_rows
    /\ length new_rows = sales_added actions self
    /\ forall y,
         map Sales.invoice_no (filter (in_year y) new_rows)
         = map (invoice_text y)
             (count_from (next_seq (sales (conn self)) y)
                (length (filter (in_year y) new_rows))).
Proof.
  revert self. induction actions as [|a actions IH]; intros self.
  { exists []. simpl. rewrite app_nil_r. auto. }
  cbn [run sales_added].
  destruct (IH (fst (step a self))) as (rows & Hrows & Hlen & Hnum).
  destruct (step_sales a self) as [[-> Hsame]|[-> (row & y0 & Hone & Hy0 & Hinv & Hnew)]].
  - exists rows. rewrite Hrows, Hsame. split; [reflexivity|].
    split; [exact Hlen|]. intros y. rewrite <- Hsame. apply Hnum.
  - exists (row :: rows). rewrite Hrows, Hone, <- app_assoc.
    split; [reflexivity|]. split; [simpl; now rewrite Hlen|].
    intros y. specialize (Hnum y). rewrite Hone in Hnum.
    pose proof (in_year_pos _ _ Hy0) as Hpos.
    pose proof (next_seq_pos (sales (conn self)) y0) as Hseq.
    destruct (next_seq_append (sales (conn self)) row y0
                (next_seq (sales (conn self)) y0)
                ltac:(lia) ltac:(lia) Hinv Hnew) as [Hnext Hother].
    destruct (decide (y = y0)) as [->|Hne].
    + rewrite filter_cons_True by exact Hy0. cbn [length count_from map].
      rewrite Hinv, Hnum, Hnext. reflexivity.
    + rewrite filter_cons_False.
      2:{ unfold in_year in *. congruence. }
      destruct (Z.lt_ge_cases y 1) as [Hneg|Hge].
      * rewrite filter_in_year_nil by exact Hneg. reflexivity.
      * rewrite Hnum, Hother by lia. reflexivity.
Qed.

(** C3. Along any run of the application, started in any ledger, the
    sales it adds get, within each calendar year, consecutive invoice
    numbers: the [k] sales added in year [y] are numbered [n], [n+1], ...,
    [n+k-1], one step per successful [add_sale], where [n] is the number
    the sequencer gives for [y] in the starting ledger, 1 when no invoice
    there matches the pattern of [y].  The numbers of a year depend on
    nothing that happens in other years. *)
Theorem invoice_numbers_consecutive (actions : list action) (self : App) :
  exists new_rows,
    sales (conn (run actions self)) = sales (conn self) ++ new_rows
    /\ length new_rows = sales_added actions self
    /\ forall y,
         let first := next_seq (sales (conn self)) y in
         let in_y := filter (in_year y) new_rows in
         map Sales.invoice_no in_y
         = map (invoice_text y) (count_from first (length in_y))
         /\ (forall i row,
               in_y !! i = Some row ->
               Sales.invoice_no row = invoice_text y (first + Z.of_nat i)
               /\ Py.int (Py.last_segment (Sales.invoice_no row))
                  = Some (first + Z.of_nat i))
         /\ 1 <= first
         /\ (invoices_like (invoice_pattern y) (sales (conn self)) = []
             -> first = 1).
Proof.
  destruct (run_sales actions self) as (rows & Hrows & Hlen & Hnum).
  exists rows. split; [exact Hrows|]. split; [exact Hlen|].
  intros y first in_y. specialize (Hnum y). fold first in_y in Hnum.
  pose proof (next_seq_pos (sales (conn self)) y) as Hpos. fold first in Hpos.
  split; [exact Hnum|]. split; [|split; [exact Hpos|]].
  - assert (Hcount : forall k n i v,
               count_from n k !! i = Some v -> v = n + Z.of_nat i).
    { induction k as [|k IHk]; intros n i v; [discriminate|].
      destruct i as [|i]; simpl.
      - intros [= <-]. lia.
      - intros H. apply IHk in H. lia. }
    intros i row Hi.
    assert (Hinv : Sales.invoice_no row = invoice_text y (first + Z.of_nat i)).
    { assert (H : map Sales.invoice_no in_y !! i = Some (Sales.invoice_no row))
        by (rewrite list_lookup_fmap, Hi; reflexivity).
      rewrite Hnum, list_lookup_fmap in H.
      destruct (count_from first (length in_y) !! i) as [v|] eqn:Ev;
        [|discriminate].
      apply Hcount in Ev as ->. now injection H as ->. }
    split; [exact Hinv|].
    rewrite Hinv, invoice_text_segment by lia. apply format_03d_spec. lia.
  - intros Hnone. unfold first, next_seq. now rewrite Hnone.
Qed.

End Runs.

Lemma invoice_numbers_consecutive_witness :
  map Sales.invoice_no
    (filter (in_year 2023) (sales (conn (run new_year shop_app))))
  = ["DZAIR-2023-001"; "DZAIR-2023-002"; "DZAIR-2023-003"]
  /\ map Sales.invoice_no
       (filter (in_year 2024) (sales (conn (run new_year shop_app))))
     = ["DZAIR-2024-001"; "DZAIR-2024-002"].
Proof.
  destruct (invoice_numbers_consecutive new_year shop_app)
    as (rows & Hrows & _ & Hnum).
  change (sales (conn shop_app)) with (@nil Sales.row) in Hrows.
  change ([] ++ rows) with rows in Hrows. subst rows.
  split.
  - destruct (Hnum 2023) as (H & _). rewrite H. vm_compute. reflexivity.
  - destruct (Hnum 2024) as (H & _). rewrite H. vm_compute. reflexivity.
Defined.

(** * The rest of the application *)

(** ** What each command does to the ledger *)

Section Effects.

Lemma next_id_fresh {A : Type} (key : A -> Z) (rows : list A) (sequence : Z) (r : A) :
  r ∈ rows -> key r < next_id key rows sequence.
Proof.
  unfold next_id. intros H.
  assert (key r <= foldr (fun r m => Z.max (key r) m) 0 rows); [|lia].
  induction rows as [|x rows IH]; [now apply elem_of_nil in H|].
  change (foldr (fun r m => Z.max (key r) m) 0 (x :: rows))
    with (Z.max (key x) (foldr (fun r m => Z.max (key r) m) 0 rows)).
  apply elem_of_cons in H as [->|H]; [apply Z.le_max_l|].
  specialize (IH H). lia.
Qed.

Lemma refresh_sales_fresh form self : fresh_maps (fst (refresh_sales form self)).
Proof.
  unfold fresh_maps. rewrite refresh_sales_conn.
  unfold refresh_sales.
  repeat match goal with |- context [if ?b then _ else _] => destruct b end;
    simpl; auto.
Qed.

Lemma add_sale_effect form today (s : Session) :
  effect s (fst (session_add_sale form today s)).
Proof.
  unfold session_add_sale.
  destruct (add_sale form today (app s)) as [a shown] eqn:E. simpl.
  destruct (sale_added shown) eqn:Hs.
  - destruct (add_sale_inv _ _ _ _ _ E Hs)
      as (cid & pid & q & dl & prod & y & Hacc & Hconn).
    apply (effect_sale _ _ form today cid pid q dl prod y Hacc); [exact Hconn|].
    pose proof (add_sale_accepts _ _ _ _ _ _ _ _ _ Hacc) as Hrun.
    cbv zeta in Hrun. rewrite E in Hrun. injection Hrun as -> _.
    apply refresh_sales_fresh.
  - destruct (add_sale_rejects _ _ _ _ _ E Hs) as [-> _].
    apply effect_none; [reflexivity|]. left. split; reflexivity.
Qed.

Lemma refresh_sales_effect form (s : Session) :
  effect s (fst (session_refresh_sales form s)).
Proof.
  unfold session_refresh_sales.
  pose proof (refresh_sales_conn form (app s)) as Hc.
  pose proof (refresh_sales_fresh form (app s)) as Hf.
  destruct (refresh_sales form (app s)) as [a shown]. simpl in *.
  apply effect_none; auto.
Qed.

Lemma add_client_effect form (s : Session) : effect s (fst (add_client form s)).
Proof.
  unfold add_client. destruct (Py.strip (c_name form)) as [|ch name].
  - apply effect_none; [reflexivity|]. left. split; reflexivity.
  - eapply effect_client; simpl; try reflexivity.
    + split; reflexivity.
    + intros c Hc. now apply next_id_fresh.
Qed.

Lemma add_product_effect form (s : Session) : effect s (fst (add_product form s)).
Proof.
  unfold add_product.
  destruct (read_product form) as [[[[[purchase selling] weight] del] stock]|].
  2:{ apply effect_none; [reflexivity|]. left. split; reflexivity. }
  destruct (Py.strip (p_name form)) as [|ch name].
  { apply effect_none; [reflexivity|]. left. split; reflexivity. }
  destruct (Sqlite.fits_int64 stock); simpl.
  - eapply effect_product; simpl; try reflexivity.
    + split; reflexivity.
    + intros p Hp. now apply next_id_fresh.
  - apply effect_none; [reflexivity|]. left. split; reflexivity.
Qed.

Lemma add_fee_effect form today (s : Session) : effect s (fst (add_fee form today s)).
Proof.
  unfold add_fee. destruct (Py.strip (f_name form)) as [|ch name];
    [|destruct (Py.float (f_amount form))]; simpl;
    (apply effect_none; [reflexivity|]; left; split; reflexivity).
Qed.

Lemma refresh_all_effect form (s : Session) : effect s (fst (refresh_all form s)).
Proof.
  unfold refresh_all, session_refresh_sales.
  pose proof (refresh_sales_conn form (app (refresh_products (refresh_clients s))))
    as Hc.
  pose proof (refresh_sales_fresh form (app (refresh_products (refresh_clients s))))
    as Hf.
  destruct (refresh_sales form (app (refresh_products (refresh_clients s))))
    as [a shown].
  simpl in *. apply effect_none; [exact Hc|]. right. exact Hf.
Qed.

Lemma perform_effect (c : command) (s : Session) : effect s (fst (perform c s)).
Proof.
  destruct c; simpl.
  - apply add_client_effect.
  - apply add_product_effect.
  - apply add_fee_effect.
  - apply add_sale_effect.
  - apply refresh_sales_effect.
  - apply effect_none; [reflexivity|]. left. split; reflexivity.
  - apply refresh_all_effect.
Qed.

End Effects.

(** ** Invariants kept by every command *)

Section Invariants.

Lemma update_client_id amount id c :
  Clients.client_id (update_client amount id c) = Clients.client_id c.
Proof. unfold update_client. now destruct (_ =? _). Qed.

Lemma update_product_id qty id p :
  Products.product_id (update_product qty id p) = Products.product_id p.
Proof. unfold update_product. now destruct (_ =? _). Qed.

Lemma find_product_some (db : DB) (id : Z) (p : Products.row) :
  find_product db id = Some p -> p ∈ products db /\ Products.product_id p = id.
Proof.
  unfold find_product. intros H. apply find_some in H as [Hin Hid].
  split; [now apply list_elem_of_In | now apply Z.eqb_eq].
Qed.

Lemma fresh_maps_sound (a : App) : fresh_maps a -> maps_sound a.
Proof.
  intros [Hc Hp]. split; intros k id H.
  - rewrite Hc in H. apply build_client_map_lookup in H as (c & ? & ? & _). eauto.
  - rewrite Hp in H. apply build_product_map_lookup in H as (p & ? & ? & _). eauto.
Qed.

Lemma client_kept (s : Session) form today cid pid q dl prod y id :
  (exists c, c ∈ clients (conn (app s)) /\ Clients.client_id c = id) ->
  exists c, c ∈ clients (recorded form today (app s) cid pid q dl prod y)
            /\ Clients.client_id c = id.
Proof.
  intros (c & Hc & Hid). eexists. split.
  - unfold recorded. cbn [clients]. apply list_elem_of_fmap. eauto.
  - now rewrite update_client_id.
Qed.

Lemma product_kept (s : Session) form today cid pid q dl prod y id :
  (exists p, p ∈ products (conn (app s)) /\ Products.product_id p = id) ->
  exists p, p ∈ products (recorded form today (app s) cid pid q dl prod y)
            /\ Products.product_id p = id.
Proof.
  intros (p & Hp & Hid). eexists. split.
  - unfold recorded. cbn [products]. apply list_elem_of_fmap. eauto.
  - now rewrite update_product_id.
Qed.

Lemma effect_maps_sound (s s' : Session) :
  effect s s' -> maps_sound (app s) -> maps_sound (app s').
Proof.
  intros [Hconn Hmaps|row Hconn [Hc Hp] _ _ _|row Hconn [Hc Hp] _|
          form today cid pid q dl prod y _ _ Hfresh] [Hcs Hps].
  - destruct Hmaps as [[Hc Hp]|Hf]; [|now apply fresh_maps_sound].
    split; intros k id H; rewrite Hconn; [rewrite Hc in H|rewrite Hp in H]; eauto.
  - split; intros k id H; rewrite Hconn; cbn [clients products].
    + rewrite Hc in H. destruct (Hcs _ _ H) as (c & ? & ?).
      exists c. split; [apply elem_of_app; now left | assumption].
    + rewrite Hp in H. eauto.
  - split; intros k id H; rewrite Hconn; cbn [clients products].
    + rewrite Hc in H. eauto.
    + rewrite Hp in H. destruct (Hps _ _ H) as (p & ? & ?).
      exists p. split; [apply elem_of_app; now left | assumption].
  - now apply fresh_maps_sound.
Qed.

Lemma effect_references (s s' : Session) :
  effect s s' -> maps_sound (app s) -> references_ok (conn (app s)) ->
  references_ok (conn (app s')).
Proof.
  intros [Hconn _|row Hconn _ _ _ _|row Hconn _ _|
          form today cid pid q dl prod y Hacc Hconn _] [Hcs Hps] Hrefs;
    unfold references_ok; rewrite Hconn.
  - exact Hrefs.
  - cbn [clients products sales]. intros r Hr.
    destruct (Hrefs r Hr) as [(c & ? & ?) Hp]. split; [|exact Hp].
    exists c. split; [apply elem_of_app; now left | assumption].
  - cbn [clients products sales]. intros r Hr.
    destruct (Hrefs r Hr) as [Hc (p & ? & ?)]. split; [exact Hc|].
    exists p. split; [apply elem_of_app; now left | assumption].
  - intros r Hr. unfold recorded in Hr. cbn [sales] in Hr.
    apply elem_of_app in Hr as [Hr|Hr].
    + destruct (Hrefs r Hr) as [Hc Hp].
      split; [now apply client_kept | now apply product_kept].
    + apply list_elem_of_singleton in Hr as ->. destruct Hacc.
      cbn [new_sale Sales.client_id Sales.product_id]. split.
      * apply client_kept. eauto.
      * apply product_kept. apply find_product_some in acc_row0. eauto.
Qed.

Lemma total_app (l : list Q) (x : Q) : (total (l ++ [x]) == total l + x)%Q.
Proof.
  induction l as [|v l IH]; simpl; [ring|].
  unfold total in *. simpl. rewrite IH. ring.
Qed.




End Invariants.

Section MoreInvariants.

Lemma invoice_text_inj (y n y' n' : Z) :
  0 <= y -> 0 <= n -> 0 <= y' -> 0 <= n' ->
  invoice_text y n = invoice_text y' n' -> y = y' /\ n = n'.
Proof.
  intros Hy Hn Hy' Hn' E.
  assert (y = y') as <-.
  { apply (invoice_pattern_matches y y' n' Hy Hy'). rewrite <- E.
    now apply invoice_pattern_matches. }
  split; [reflexivity|].
  apply (f_equal Py.last_segment) in E.
  rewrite !invoice_text_segment in E by assumption.
  apply (f_equal Py.int) in E.
  rewrite (proj1 (format_03d_spec n Hn)), (proj1 (format_03d_spec n' Hn')) in E.
  congruence.
Qed.

Lemma numbered_free (db : DB) (y : Z) :
  numbered (sales db) -> 0 <= y ->
  invoice_taken db (invoice_text y (next_seq (sales db) y)) = false.
Proof.
  intros Hnum Hy. unfold invoice_taken.
  destruct (existsb _ _) eqn:E; [|reflexivity]. exfalso.
  apply existsb_exists in E as (r & Hr & Heq).
  apply String.eqb_eq in Heq. apply list_elem_of_In in Hr.
  destruct (Hnum r Hr) as (y' & n' & Hy' & Hn' & Hinv & Hlt).
  pose proof (next_seq_pos (sales db) y).
  rewrite Hinv in Heq. apply invoice_text_inj in Heq as [-> ->]; lia.
Qed.

Lemma numbered_append (rows : list Sales.row) (r : Sales.row) (y : Z) :
  numbered rows -> 0 <= y ->
  Sales.invoice_no r = invoice_text y (next_seq rows y) ->
  (forall r', r' ∈ rows -> Sales.sale_id r' < Sales.sale_id r) ->
  numbered (rows ++ [r]).
Proof.
  intros Hnum Hy Hinv Hnew.
  pose proof (next_seq_pos rows y) as Hpos.
  destruct (next_seq_append rows r y (next_seq rows y) Hy ltac:(lia) Hinv Hnew)
    as [Hnext Hother].
  intros r' Hr'. apply elem_of_app in Hr' as [Hr'|Hr'].
  - destruct (Hnum r' Hr') as (y' & n' & Hy' & Hn' & Hinv' & Hlt).
    exists y', n'. repeat split; try assumption.
    destruct (Z.eq_dec y' y) as [->|Hne]; [rewrite Hnext; lia|].
    now rewrite Hother.
  - apply list_elem_of_singleton in Hr' as ->.
    exists y, (next_seq rows y). repeat split; try assumption; lia.
Qed.

Lemma accepted_year form today a cid pid q dl prod y :
  accepted form today a cid pid q dl prod y -> 1 <= y <= 9999.
Proof.
  intros [_ _ _ _ _ Hy _ _].
  destruct (Py.fromisoformat today) as [d|] eqn:E; [|discriminate].
  injection Hy as <-. now apply fromisoformat_year in E.
Qed.

Lemma effect_numbered (s s' : Session) :
  effect s s' -> numbered (sales (conn (app s))) -> numbered (sales (conn (app s'))).
Proof.
  intros [Hconn _|row Hconn _ _ _ _|row Hconn _ _|
          form today cid pid q dl prod y Hacc Hconn _] Hnum;
    rewrite Hconn; try exact Hnum.
  unfold recorded. cbn [sales].
  pose proof (accepted_year _ _ _ _ _ _ _ _ _ Hacc).
  apply (numbered_append _ _ y); [exact Hnum | lia | reflexivity|].
  intros r Hr. now apply next_sale_id_fresh.
Qed.







End MoreInvariants.

(** ** Whole sessions *)

Section Sessions.

Lemma session_run_ind (P : Session -> Prop) :
  (forall s s', effect s s' -> P s -> P s') ->
  forall commands s, P s -> P (session_run commands s).
Proof.
  intros Hstep commands. induction commands as [|c commands IH]; intros s Hs;
    [exact Hs|].
  simpl. apply IH. eapply Hstep; [apply perform_effect | exact Hs].
Qed.

Lemma start_fresh form db stored a b c :
  conn (app (start form db stored a b c)) = db
  /\ fresh_maps (app (start form db stored a b c)).
Proof.
  unfold start, refresh_all, session_refresh_sales.
  match goal with
  | |- context [refresh_sales form ?x] =>
      pose proof (refresh_sales_conn form x) as Hc;
      pose proof (refresh_sales_fresh form x) as Hf;
      destruct (refresh_sales form x) as [a0 shown]
  end.
  simpl in *. split; [exact Hc | exact Hf].
Qed.

(** X1. Every sale refers to an existing client and an existing product,
    and every id in the key maps is the id of a row: a session that starts
    so stays so, whatever the user does. *)
Theorem session_keeps_references (commands : list command) (s : Session) :
  maps_sound (app s) -> references_ok (conn (app s)) ->
  maps_sound (app (session_run commands s))
  /\ references_ok (conn (app (session_run commands s))).
Proof.
  intros Hm Hr.
  apply (session_run_ind
           (fun s => maps_sound (app s) /\ references_ok (conn (app s))));
    [|auto].
  intros s1 s2 He [Hm1 Hr1]. split.
  - now apply (effect_maps_sound s1).
  - now apply (effect_references s1).
Qed.

Lemma session_keeps_references_witness :
  references_ok (conn (app (session_run busy_day shop_session)))
  /\ length (sales (conn (app (session_run busy_day shop_session)))) = 3%nat.
Proof.
  split; [|vm_compute; reflexivity].
  apply (session_keeps_references busy_day shop_session).
  - apply fresh_maps_sound, start_fresh.
  - intros r Hr. vm_compute in Hr. now apply elem_of_nil in Hr.
Defined.

(** X2. In a session opened by the program the dialog "Product not found"
    never appears: the product key chosen is a key of the map, and the map
    holds ids of rows only. *)
Theorem product_not_found_never_shown (form0 : Form) (db : DB)
    (stored : list Fees.row) (a b c : Z) (commands : list command)
    (form : Form) (today : string) :
  snd (perform (Sale form today)
         (session_run commands (start form0 db stored a b c)))
  <> [showerror "Error" "Product not found"].
Proof.
  assert (Hm : maps_sound (app (session_run commands (start form0 db stored a b c)))).
  { apply (session_run_ind (fun s => maps_sound (app s))).
    - intros s1 s2 He. now apply effect_maps_sound.
    - apply fresh_maps_sound, start_fresh. }
  set (s := session_run commands (start form0 db stored a b c)) in *.
  simpl. unfold session_add_sale.
  destruct (add_sale form today (app s)) as [a' shown] eqn:E. simpl.
  intros ->. unfold add_sale in E.
  destruct (client_map (app s) !! sale_client form); [|discriminate].
  destruct (product_map (app s) !! sale_product form) as [pid|] eqn:Hp;
    [|discriminate].
  destruct (read_qty form); [|discriminate].
  destruct (read_delivery form); [|discriminate].
  destruct (find_product (conn (app s)) pid) eqn:Hfind.
  - destruct (generate_invoice_no _ _ _); [|discriminate].
    destruct (insert_sale _ _); [|discriminate].
    destruct (refresh_sales _ _). discriminate.
  - destruct Hm as [_ Hps]. destruct (Hps _ _ Hp) as (p & Hin & Hid).
    unfold find_product in Hfind. apply list_elem_of_In in Hin.
    apply (find_none _ _ Hfind) in Hin. rewrite Hid, Z.eqb_refl in Hin.
    discriminate.
Qed.




Lemma add_sale_no_collision form today (a : App) :
  numbered (sales (conn a)) ->
  snd (add_sale form today a) <> [raised Py.IntegrityError].
Proof.
  intros Hnum. unfold add_sale.
  destruct (client_map a !! sale_client form); [|discriminate].
  destruct (product_map a !! sale_product form); [|discriminate].
  destruct (read_qty form); [|discriminate].
  destruct (read_delivery form); [|discriminate].
  destruct (find_product (conn a) _); [|discriminate].
  unfold generate_invoice_no. simpl default.
  destruct (Py.fromisoformat today) as [d|] eqn:Hd; [|discriminate].
  apply fromisoformat_year in Hd.
  unfold insert_sale. cbn [new_sale Sales.invoice_no].
  rewrite numbered_free by (assumption || lia).
  destruct (negb _); [discriminate|].
  destruct (refresh_sales _ _). discriminate.
Qed.

(** X5. A ledger whose invoice numbers were all written by the sequencer
    never hits the [UNIQUE] constraint on [invoice_no]: after any session
    the numbers are still the sequencer's, and no [add_sale] raises
    [IntegrityError]. *)
Theorem session_never_hits_unique (commands : list command) (s : Session) :
  numbered (sales (conn (app s))) ->
  numbered (sales (conn (app (session_run commands s))))
  /\ forall form today,
       snd (perform (Sale form today) (session_run commands s))
       <> [raised Py.IntegrityError].
Proof.
  intros Hnum.
  assert (H : numbered (sales (conn (app (session_run commands s))))).
  { apply (session_run_ind (fun s => numbered (sales (conn (app s)))));
      [|exact Hnum].
    intros s1 s2 He. now apply effect_numbered. }
  split; [exact H|]. intros form today. simpl. unfold session_add_sale.
  pose proof (add_sale_no_collision form today _ H) as Hno.
  destruct (add_sale form today _). exact Hno.
Qed.

Lemma session_never_hits_unique_witness :
  snd (perform (Sale order_burnous "2024-05-04")
         (session_run busy_day shop_session))
  <> [raised Py.IntegrityError].
Proof.
  apply (session_never_hits_unique busy_day shop_session).
  intros r Hr. vm_compute in Hr. now apply elem_of_nil in Hr.
Defined.



End Sessions.

(** ** More on [add_sale] *)

Section MoreSales.

(** X7. [add_sale] is all or nothing.  Either it reports exactly one
    failure, one of seven, and the application state (tables, key maps,
    list on screen) is what it was; or it shows "Sale Added" with the
    invoice number and the ledger has exactly one more sale, carrying that
    number, and as many clients and products as before. *)
Theorem add_sale_all_or_nothing (form : Form) (today : string) (self : App) :
  (fst (add_sale form today self) = self
   /\ exists e,
        snd (add_sale form today self) = [e]
        /\ e ∈ [showerror "Validation" "Select valid client and product";
                showerror "Validation" "Quantity must be integer";
                showerror "Validation" "Delivery must be numeric";
                showerror "Error" "Product not found";
                raised Py.ValueError; raised Py.OverflowError;
                raised Py.IntegrityError])
  \/ (exists row later,
        snd (add_sale form today self)
        = showinfo "Sale Added" ("Invoice: " +:+ Sales.invoice_no row) :: later
        /\ sales (conn (fst (add_sale form today self)))
           = sales (conn self) ++ [row]
        /\ length (clients (conn (fst (add_sale form today self))))
           = length (clients (conn self))
        /\ length (products (conn (fst (add_sale form today self))))
           = length (products (conn self))).
Proof.
  destruct (add_sale form today self) as [a shown] eqn:E.
  destruct (sale_added shown) eqn:Hs.
  - right. destruct (add_sale_inv _ _ _ _ _ E Hs)
      as (cid & pid & q & dl & prod & y & Hacc & Hconn).
    pose proof (add_sale_accepts _ _ _ _ _ _ _ _ _ Hacc) as Hrun.
    cbv zeta in Hrun. rewrite E in Hrun. injection Hrun as _ ->.
    simpl fst. simpl snd. rewrite Hconn. unfold recorded.
    cbn [sales clients products].
    exists (new_sale (invoice_text y (next_seq (sales (conn self)) y)) cid pid q
              prod dl (Py.or_str (sale_payment form) "Cash")
              (Py.or_str (sale_status form) "Pending") today
              (next_sale_id (conn self))).
    eexists. split; [reflexivity|]. split; [reflexivity|].
    rewrite !length_map. split; reflexivity.
  - left. destruct (add_sale_rejects _ _ _ _ _ E Hs) as [-> [e ->]].
    split; [reflexivity|]. exists e. split; [reflexivity|].
    unfold add_sale in E.
    repeat match type of E with
           | match ?x with _ => _ end = _ => destruct x
           end;
      inversion E; subst; clear E; try discriminate Hs;
      try match goal with x : Py.exn |- _ => destruct x end;
      set_solver.
Qed.

(** X8. After a successful [add_sale] the dashboard counts one sale more,
    and its profit and delivery figures are up by the [p_fayda] and the
    [tot_livraison] of the new sale. *)
Theorem add_sale_then_dashboard (form : Form) (today : string) (self : App) :
  sale_added (snd (add_sale form today self)) = true ->
  let before := refresh_dashboard self in
  let after := refresh_dashboard (fst (add_sale form today self)) in
  exists row,
    sales (conn (fst (add_sale form today self))) = sales (conn self) ++ [row]
    /\ lbl_sales after = lbl_sales before + 1
    /\ (lbl_profit after == lbl_profit before + Sales.p_fayda row)%Q
    /\ (lbl_delivery after == lbl_delivery before + Sales.tot_livraison row)%Q.
Proof.
  intros Hs before after.
  destruct (add_sale form today self) as [a shown] eqn:E.
  destruct (add_sale_inv _ _ _ _ _ E Hs)
    as (cid & pid & q & dl & prod & y & Hacc & Hconn).
  subst before after. unfold refresh_dashboard. simpl fst.
  cbn [lbl_sales lbl_profit lbl_delivery]. rewrite Hconn.
  unfold recorded. cbn [sales]. eexists. split; [reflexivity|].
  split; [rewrite length_app; simpl; lia|].
  rewrite !sum_or_zero, !map_app. cbn [map]. rewrite !total_app.
  split; reflexivity.
Qed.

Lemma add_sale_then_dashboard_witness :
  lbl_sales (refresh_dashboard shop_after_sale) = 1
  /\ lbl_sales (refresh_dashboard
                  (fst (add_sale order_teapot "2024-05-02" shop_after_sale))) = 2.
Proof.
  destruct (add_sale_then_dashboard order_teapot "2024-05-02" shop_after_sale)
    as (row & _ & Hcount & _).
  - vm_compute. reflexivity.
  - split; [vm_compute; reflexivity|]. rewrite Hcount. vm_compute. reflexivity.
Defined.

Lemma filter_all {A : Type} (f : A -> bool) (l : list A) :
  (forall x, f x = true) -> List.filter f l = l.
Proof.
  intros H. induction l as [|x l IH]; simpl; [reflexivity|].
  now rewrite H, IH.
Qed.

(** X9. With the three filters blank, a successful [add_sale] leaves on
    screen the whole ledger, the new sale on the first line. *)
Theorem add_sale_shows_new_sale_first (form : Form) (today : string) (self : App) :
  sale_added (snd (add_sale form today self)) = true ->
  Py.strip (search_var form) = "" -> Py.strip (date_from form) = "" ->
  Py.strip (date_to form) = "" ->
  let self' := fst (add_sale form today self) in
  exists row rest,
    sales (conn self') = sales (conn self) ++ [row]
    /\ sales_tree self' = tree_values (join (conn self') row) :: rest
    /\ length (sales_tree self') = length (sales (conn self')).
Proof.
  intros Hs Hsearch Hfrom Hto self'. subst self'.
  destruct (add_sale form today self) as [a shown] eqn:E.
  destruct (add_sale_inv _ _ _ _ _ E Hs)
    as (cid & pid & q & dl & prod & y & Hacc & Hconn).
  pose proof (add_sale_accepts _ _ _ _ _ _ _ _ _ Hacc) as Hrun.
  cbv zeta in Hrun. rewrite E in Hrun. injection Hrun as -> _.
  simpl fst. rewrite refresh_sales_conn. cbn [conn with_conn].
  set (db := recorded form today self cid pid q dl prod y).
  set (row := new_sale (invoice_text y (next_seq (sales (conn self)) y)) cid pid q
                prod dl (Py.or_str (sale_payment form) "Cash")
                (Py.or_str (sale_status form) "Pending") today
                (next_sale_id (conn self))).
  assert (Hsales : sales db = sales (conn self) ++ [row]) by reflexivity.
  assert (Htree : sales_tree (fst (refresh_sales form (with_conn self db)))
                  = map tree_values (select_sales db "" "" "")).
  { unfold refresh_sales. rewrite Hsearch, Hfrom, Hto. reflexivity. }
  rewrite Htree.
  assert (Hall : select_sales db "" "" ""
                 = order_by_sale_id_desc (map (join db) (sales db))).
  { unfold select_sales. f_equal. apply filter_all. reflexivity. }
  rewrite Hall.
  pose proof (order_by_sale_id_desc_sorted (map (join db) (sales db))) as Hsorted.
  pose proof (order_by_sale_id_desc_perm (map (join db) (sales db))) as Hperm.
  exists row.
  destruct (order_by_sale_id_desc (map (join db) (sales db))) as [|h t] eqn:El.
  { apply Permutation_nil in Hperm. rewrite Hsales, map_app in Hperm.
    now destruct (map (join db) (sales (conn self))). }
  exists (map tree_values t). split; [exact Hsales|]. split.
  - cbn [map]. f_equal. f_equal.
    assert (Hh : h ∈ map (join db) (sales db)).
    { rewrite <- Hperm. now left. }
    assert (Hnew : join db row ∈ h :: t).
    { rewrite Hperm, Hsales, map_app. apply elem_of_app. right. now left. }
    rewrite Hsales, map_app in Hh. apply elem_of_app in Hh as [Hold|Hh].
    + exfalso. apply list_elem_of_fmap in Hold as (r & -> & Hr).
      assert (Hlt : Sales.sale_id r < Sales.sale_id row)
        by now apply next_sale_id_fresh.
      apply elem_of_cons in Hnew as [Heq|Hin].
      * apply (f_equal sale) in Heq. simpl in Heq. rewrite <- Heq in Hlt.
        now apply Z.lt_irrefl in Hlt.
      * inversion Hsorted as [|? ? _ Hfor]; subst.
        rewrite Forall_forall in Hfor. specialize (Hfor _ Hin).
        unfold newer_first in Hfor. simpl in Hfor.
        pose proof (next_sale_id_fresh _ _ Hr). lia.
    + apply list_elem_of_singleton in Hh. now symmetry.
  - rewrite length_map, <- (length_map (join db) (sales db)).
    apply Permutation_length. exact Hperm.
Qed.

Lemma add_sale_shows_new_sale_first_witness :
  map t_invoice_no
    (sales_tree (fst (add_sale order_teapot "2024-05-02" shop_after_sale)))
  = ["DZAIR-2024-002"; "DZAIR-2024-001"].
Proof.
  destruct (add_sale_shows_new_sale_first order_teapot "2024-05-02" shop_after_sale)
    as (row & rest & _ & _ & _); try (vm_compute; reflexivity).
Defined.

(** X10. An invoice number can be read back: for a valid reference date
    the text returned matches the pattern of its own year and of no other
    year, and the text after its last hyphen reads as the sequence number
    that the next call for that year will count from. *)
Theorem generate_invoice_no_reads_back (db : DB) (date_str : option string)
    (today : string) (d : Py.datetime) :
  Py.fromisoformat (default today date_str) = Some d ->
  exists invoice,
    generate_invoice_no db date_str today = Py.Ret invoice
    /\ Py.int (Py.last_segment invoice) = Some (next_seq (sales db) (Py.year d))
    /\ Sqlite.like (invoice_pattern (Py.year d)) invoice = true
    /\ (forall y, 0 <= y -> y <> Py.year d ->
                  Sqlite.like (invoice_pattern y) invoice = false)
    /\ invoice_taken db invoice
       = bool_decide (invoice ∈ map Sales.invoice_no (sales db)).
Proof.
  intros Hd. pose proof (fromisoformat_year _ _ Hd) as Hy.
  pose proof (next_seq_pos (sales db) (Py.year d)) as Hseq.
  eexists. split; [unfold generate_invoice_no; rewrite Hd; reflexivity|].
  split; [|split; [|split]].
  - rewrite invoice_text_segment by lia. apply format_03d_spec. lia.
  - apply invoice_pattern_matches; [lia..|reflexivity].
  - intros y Hy0 Hne.
    destruct (Sqlite.like (invoice_pattern y) _) eqn:E; [|reflexivity].
    apply invoice_pattern_matches in E; [congruence | lia..].
  - unfold invoice_taken.
    destruct (existsb _ _) eqn:E; symmetry.
    + apply bool_decide_eq_true. apply existsb_exists in E as (r & Hr & Heq).
      apply String.eqb_eq in Heq. rewrite <- Heq.
      apply list_elem_of_fmap. exists r. split; [reflexivity|].
      now apply list_elem_of_In.
    + apply bool_decide_eq_false. intros Hin.
      apply list_elem_of_fmap in Hin as (r & Heq & Hr).
      apply list_elem_of_In in Hr.
      assert (existsb (fun r0 => String.eqb (Sales.invoice_no r0)
                                   (invoice_text (Py.year d)
                                      (next_seq (sales db) (Py.year d))))
                (sales db) = true); [|congruence].
      apply existsb_exists. exists r. split; [exact Hr|].
      apply String.eqb_eq. now symmetry.
Qed.

Lemma generate_invoice_no_reads_back_witness :
  exists invoice,
    generate_invoice_no (conn january) None "2024-03-01" = Py.Ret invoice
    /\ Py.int (Py.last_segment invoice) = Some 3.
Proof.
  destruct (generate_invoice_no_reads_back (conn january) None "2024-03-01"
              (Py.mkdate 2024 3 1)) as (invoice & Hret & Hint & _).
  - vm_compute. reflexivity.
  - exists invoice. split; [exact Hret|]. rewrite Hint. vm_compute. reflexivity.
Defined.


End MoreSales.

(** ** Lists on screen and exports *)

Section Lists.

Context {A : Type} (key : A -> Z).

Lemma insert_by_desc_perm (x : A) (l : list A) :
  Permutation (insert_by_desc key x l) (x :: l).
Proof.
  induction l as [|y l IH]; simpl; [reflexivity|].
  destruct (key y <? key x); [reflexivity|].
  rewrite IH. apply perm_swap.
Qed.

Lemma order_by_desc_perm (l : list A) : Permutation (order_by_desc key l) l.
Proof.
  induction l as [|x l IH]; simpl; [reflexivity|].
  rewrite insert_by_desc_perm. now constructor.
Qed.

Lemma insert_by_desc_sorted (x : A) (l : list A) :
  StronglySorted (fun a b => key b <= key a) l ->
  StronglySorted (fun a b => key b <= key a) (insert_by_desc key x l).
Proof.
  induction 1 as [|y l Hl IH Hy]; simpl.
  - repeat constructor.
  - destruct (Z.ltb_spec (key y) (key x)) as [Hlt|Hge].
    + constructor; [constructor; assumption|].
      constructor; [lia|]. eapply Forall_impl; [exact Hy|]. intros; simpl in *; lia.
    + constructor; [exact IH|].
      eapply Permutation_Forall; [symmetry; apply insert_by_desc_perm|].
      constructor; [lia | exact Hy].
Qed.

Lemma order_by_desc_sorted (l : list A) :
  StronglySorted (fun a b => key b <= key a) (order_by_desc key l).
Proof.
  induction l as [|x l IH]; simpl; [constructor|].
  now apply insert_by_desc_sorted.
Qed.

End Lists.

(** X12. The three other lists.  [refresh_clients], [refresh_products] and
    [refresh_fees] each put on screen every row of their table, once,
    greatest id first, and touch nothing else of the session. *)
Theorem refresh_lists_show_tables (s : Session) :
  (Permutation (clients_tree (refresh_clients s)) (clients (conn (app s)))
   /\ StronglySorted (fun a b => Clients.client_id b <= Clients.client_id a)
        (clients_tree (refresh_clients s))
   /\ refresh_clients s
      = mkSession (app s) (fees s) (clients_sequence s) (products_sequence s)
          (fees_sequence s) (clients_tree (refresh_clients s))
          (products_tree s) (fees_tree s))
  /\ (Permutation (products_tree (refresh_products s)) (products (conn (app s)))
      /\ StronglySorted (fun a b => Products.product_id b <= Products.product_id a)
           (products_tree (refresh_products s))
      /\ refresh_products s
         = mkSession (app s) (fees s) (clients_sequence s) (products_sequence s)
             (fees_sequence s) (clients_tree s)
             (products_tree (refresh_products s)) (fees_tree s))
  /\ (Permutation (fees_tree (refresh_fees s)) (fees s)
      /\ StronglySorted (fun a b => Fees.fee_id b <= Fees.fee_id a)
           (fees_tree (refresh_fees s))
      /\ refresh_fees s
         = mkSession (app s) (fees s) (clients_sequence s) (products_sequence s)
             (fees_sequence s) (clients_tree s) (products_tree s)
             (fees_tree (refresh_fees s))).
Proof.
  repeat split;
    first [apply order_by_desc_perm | apply order_by_desc_sorted].
Qed.

(** X13. Refreshing the sales list twice with the same filters is
    refreshing it once, and refreshing the list and refreshing the
    dashboard can be done in either order. *)
Theorem refresh_sales_idempotent (form : Form) (self : App) :
  refresh_sales form (fst (refresh_sales form self)) = refresh_sales form self
  /\ fst (refresh_sales form (refresh_dashboard self))
     = refresh_dashboard (fst (refresh_sales form self)).
Proof.
  unfold refresh_sales, refresh_dashboard.
  repeat match goal with |- context [if ?b then _ else _] => destruct b end;
    split; reflexivity.
Qed.

(** X14. The export of the filtered sales writes what the list shows: with
    a file chosen, it stops on the same date dialog as [refresh_sales]
    would, and otherwise the sheet holds, in order, the rows whose values
    [refresh_sales] puts on screen; with the file dialog cancelled nothing
    is written and nothing shown.  It never changes the application. *)
Theorem export_matches_screen (path : string) (form : Form) (self : App) :
  (path = "" -> export_filtered_excel path form self = (None, []))
  /\ (path <> "" ->
      match fst (export_filtered_excel path form self) with
      | Some rows =>
          snd (refresh_sales form self) = []
          /\ sales_tree (fst (refresh_sales form self)) = map tree_values rows
          /\ snd (export_filtered_excel path form self)
             = [showinfo "Exported" ("Filtered sales saved to " +:+ path)]
      | None =>
          snd (export_filtered_excel path form self) = snd (refresh_sales form self)
          /\ (snd (refresh_sales form self) = [date_error_from]
              \/ snd (refresh_sales form self) = [date_error_to])
          /\ sales_tree (fst (refresh_sales form self)) = sales_tree self
      end).
Proof.
  split; [intros ->; reflexivity|]. intros Hpath.
  unfold export_filtered_excel, refresh_sales.
  destruct path as [|ch path]; [contradiction|].
  repeat match goal with |- context [if ?b then _ else _] => destruct b end;
    simpl; auto.
Qed.

Lemma export_matches_screen_witness :
  (fun r => map (fun j => Sales.invoice_no (sale j)) <$> fst r)
    (export_filtered_excel "january.xlsx"
       (filter_form "" "2024-01-01" "2024-01-31") january)
  = Some ["DZAIR-2024-001"]
  /\ map t_invoice_no
       (sales_tree (fst (refresh_sales (filter_form "" "2024-01-01" "2024-01-31")
                           january)))
     = ["DZAIR-2024-001"].
Proof.
  destruct (export_matches_screen "january.xlsx"
              (filter_form "" "2024-01-01" "2024-01-31") january) as [_ H].
  specialize (H ltac:(discriminate)).
  destruct (fst (export_filtered_excel "january.xlsx"
                   (filter_form "" "2024-01-01" "2024-01-31") january))
    as [rows|] eqn:E.
  - destruct H as (_ & Htree & _). split; [|rewrite Htree]; revert E;
      vm_compute; intros [= <-]; reflexivity.
  - vm_compute in E. discriminate.
Defined.

(** ** The invoice of a line of the sales list *)

Section Invoices.

Lemma find_by_sale_id (rows : list Sales.row) (row : Sales.row) :
  NoDup (map Sales.sale_id rows) -> row ∈ rows ->
  find (fun r => Sales.sale_id r =? Sales.sale_id row) rows = Some row.
Proof.
  induction rows as [|x rows IH]; intros Hnd Hin; [inversion Hin|].
  simpl in Hnd. apply NoDup_cons in Hnd as [Hx Hnd]. simpl.
  destruct (Z.eqb_spec (Sales.sale_id x) (Sales.sale_id row)) as [E|E].
  - apply elem_of_cons in Hin as [->|Hin]; [reflexivity|].
    exfalso. apply Hx. rewrite E. apply list_elem_of_fmap. eauto.
  - apply elem_of_cons in Hin as [->|Hin]; [congruence|]. now apply IH.
Qed.

(** X15. The invoice printed is the one of the line selected.  When the
    sales list is fresh (its last refresh showed no dialog) and sale ids
    are unique, as the primary key makes them, [export_invoice_pdf] on a
    selected line of the list with a file chosen finds the sale and prints
    the invoice number, date, client, product, quantity, selling price and
    the two profits that the line shows. *)
Theorem invoice_of_listed_sale (form : Form) (self : App) (line : TreeRow)
    (others : list TreeRow) (path : string) :
  NoDup (map Sales.sale_id (sales (conn self))) ->
  snd (refresh_sales form self) = [] ->
  line ∈ sales_tree (fst (refresh_sales form self)) ->
  path <> "" ->
  exists page,
    export_invoice_pdf true (line :: others) path (fst (refresh_sales form self))
    = (Some page, [showinfo "Saved" ("Invoice saved to " +:+ path)])
    /\ page_invoice page = t_invoice_no line
    /\ page_date page = t_date line
    /\ page_client page = t_client line
    /\ page_product page = t_product line
    /\ page_quantity page = t_qty line
    /\ page_selling_price page = t_selling_price line
    /\ page_p_fayda page = t_p_fayda line
    /\ page_fayda_safia page = t_fayda_safia line.
Proof.
  intros Hnd Hshown Hline Hpath.
  assert (Htree : exists s df dt,
             sales_tree (fst (refresh_sales form self))
             = map tree_values (select_sales (conn self) s df dt)).
  { revert Hshown. unfold refresh_sales.
    repeat match goal with |- context [if ?b then _ else _] => destruct b end;
      simpl; try discriminate. intros _. eauto. }
  destruct Htree as (s & df & dt & Htree). rewrite Htree in Hline.
  apply list_elem_of_fmap in Hline as (j & -> & Hj).
  apply select_sales_elem in Hj as (row & Hrow & -> & _).
  exists (invoice_page (conn self) row).
  unfold export_invoice_pdf. rewrite refresh_sales_conn. simpl negb. cbv iota.
  change (t_sale_id (tree_values (join (conn self) row))) with (Sales.sale_id row).
  rewrite (find_by_sale_id _ _ Hnd Hrow).
  destruct path as [|ch path]; [contradiction|].
  repeat split.
Qed.

Lemma invoice_of_listed_sale_witness :
  exists page,
    export_invoice_pdf true
      (sales_tree (fst (refresh_sales blank_form january))) "invoice.pdf"
      (fst (refresh_sales blank_form january))
    = (Some page, [showinfo "Saved" "Invoice saved to invoice.pdf"])
    /\ page_invoice page = "DZAIR-2024-002".
Proof.
  destruct (invoice_of_listed_sale blank_form january
              (nth 0 (sales_tree (fst (refresh_sales blank_form january)))
                 (mkTreeRow 0 "" "" None None 0 0%Q 0%Q 0%Q 0%Q ""))
              (tl (sales_tree (fst (refresh_sales blank_form january))))
              "invoice.pdf")
    as (page & Hpage & Hinv & _).
  - apply (bool_decide_unpack _). vm_compute. exact I.
  - vm_compute. reflexivity.
  - vm_compute. left.
  - discriminate.
  - exists page. split; [exact Hpage | rewrite Hinv; vm_compute; reflexivity].
Defined.

End Invoices.

(** ** The keys of the combo boxes *)

Section Keys.

Lemma after_last_plain (c : ascii) (s cur : string) :
  lacks c s -> after_last c cur s = cur.
Proof.
  revert cur. induction s as [|x s IH]; intros cur; simpl; [reflexivity|].
  intros [Hx Hs]. destruct (Ascii.eqb_spec x c); [contradiction|]. now apply IH.
Qed.

Lemma after_last_app (c : ascii) (a b cur : string) :
  lacks c b -> after_last c cur (a +:+ String c b) = b.
Proof.
  intros Hb. revert cur. induction a as [|x a IH]; intros cur.
  - simpl. rewrite Ascii.eqb_refl. now apply after_last_plain.
  - change (String x a +:+ String c b) with (String x (a +:+ String c b)).
    simpl. destruct (Ascii.eqb x c); apply IH.
Qed.

Lemma digits_lack_paren (ds : list Z) :
  Forall is_digit ds -> lacks "(" (Py.string_of_digits ds +:+ ")").
Proof.
  induction 1 as [|d ds Hd Hds IH].
  - simpl. split; [discriminate | exact I].
  - change (lacks "(" (String (Py.digit_char d) (Py.string_of_digits ds +:+ ")"))).
    split; [|exact IH]. digit_cases d Hc; discriminate.
Qed.

Lemma append_inj_l (a b c : string) : a +:+ c = b +:+ c -> a = b.
Proof.
  revert b. induction a as [|x a IH]; intros [|y b] H.
  - reflexivity.
  - apply (f_equal String.length) in H.
    change (String.length c = S (String.length (b +:+ c))) in H.
    rewrite append_length in H. lia.
  - apply (f_equal String.length) in H.
    change (S (String.length (a +:+ c)) = String.length c) in H.
    rewrite append_length in H. lia.
  - change (String x (a +:+ c) = String y (b +:+ c)) in H.
    injection H as -> H. f_equal. now apply IH.
Qed.

Lemma map_key_shape (name : string) (id : Z) :
  0 <= id ->
  map_key name id
  = (name +:+ " ") +:+ String "(" (Py.string_of_digits (digits_of id) +:+ ")").
Proof.
  intros Hid. unfold map_key. rewrite (str_digits id Hid), append_assoc.
  reflexivity.
Qed.

(** A key names one id and one name. *)
Lemma map_key_inj (name name' : string) (id id' : Z) :
  0 <= id -> 0 <= id' -> map_key name id = map_key name' id' ->
  id = id' /\ name = name'.
Proof.
  intros Hid Hid' H.
  destruct (digits_of_spec id Hid) as (_ & _ & Hd & _).
  destruct (digits_of_spec id' Hid') as (_ & _ & Hd' & _).
  assert (Hs : Py.string_of_digits (digits_of id) +:+ ")"
               = Py.string_of_digits (digits_of id') +:+ ")").
  { pose proof (f_equal (after_last "(" "") H) as G.
    rewrite (map_key_shape name id Hid), (map_key_shape name' id' Hid') in G.
    rewrite !after_last_app in G by now apply digits_lack_paren.
    exact G. }
  assert (E : id = id').
  { apply append_inj_l, string_of_digits_inj in Hs; [|assumption..].
    now apply digits_of_inj. }
  split; [exact E|]. subst id'. unfold map_key in H.
  now apply append_inj_l in H.
Qed.

(** The entry of a row in a key map is the id of a row with the same key. *)
Lemma key_map_last {A : Type} (key : A -> string) (id : A -> Z)
    (rows : list A) (r : A) :
  r ∈ rows ->
  exists r', r' ∈ rows /\ key r' = key r
    /\ foldl (fun m r => <[key r := id r]> m) (∅ : gmap string Z) rows !! key r
       = Some (id r').
Proof.
  induction rows as [|x rows IH] using rev_ind; intros Hin.
  - now apply elem_of_nil in Hin.
  - rewrite foldl_app. simpl.
    destruct (decide (key x = key r)) as [E|E].
    + exists x. split; [apply elem_of_app; right; left|].
      split; [exact E|]. rewrite <- E. apply lookup_insert_eq.
    + apply elem_of_app in Hin as [Hin|Hin].
      * destruct (IH Hin) as (r' & Hr' & Hk & Hl). exists r'.
        split; [apply elem_of_app; now left|]. split; [exact Hk|].
        rewrite lookup_insert_ne by exact E. exact Hl.
      * apply list_elem_of_singleton in Hin. congruence.
Qed.

(** X16. Every client and every product of the tables can be chosen for a
    sale once the sales list has been refreshed: its entry in the combo
    box leads to its own id, also when other rows share its name, so
    [add_sale] with these two entries shows neither "Select valid client
    and product" nor "Product not found". *)
Theorem listed_rows_can_be_sold (form : Form) (self : App)
    (c : Clients.row) (p : Products.row) :
  ids_nonneg Clients.client_id (clients (conn self)) ->
  ids_nonneg Products.product_id (products (conn self)) ->
  c ∈ clients (conn self) -> p ∈ products (conn self) ->
  let self' := fst (refresh_sales form self) in
  client_map self' !! map_key (Clients.name c) (Clients.client_id c)
  = Some (Clients.client_id c)
  /\ product_map self' !! map_key (Products.name p) (Products.product_id p)
     = Some (Products.product_id p)
  /\ forall order today,
       sale_client order = map_key (Clients.name c) (Clients.client_id c) ->
       sale_product order = map_key (Products.name p) (Products.product_id p) ->
       snd (add_sale order today self')
       <> [showerror "Validation" "Select valid client and product"]
       /\ snd (add_sale order today self') <> [showerror "Error" "Product not found"].
Proof.
  intros Hcs Hps Hc Hp self'.
  assert (Lc : client_map self' !! map_key (Clients.name c) (Clients.client_id c)
               = Some (Clients.client_id c)).
  { unfold self'. rewrite (proj1 (refresh_sales_maps form self)).
    destruct (key_map_last (fun r => map_key (Clients.name r) (Clients.client_id r))
                Clients.client_id _ _ Hc) as (c' & Hc' & Hk & Hl).
    unfold build_client_map. rewrite Hl. f_equal.
    unfold ids_nonneg in Hcs. rewrite Forall_forall in Hcs.
    apply map_key_inj in Hk; [tauto|apply Hcs; assumption..]. }
  assert (Lp : product_map self' !! map_key (Products.name p) (Products.product_id p)
               = Some (Products.product_id p)).
  { unfold self'. rewrite (proj2 (refresh_sales_maps form self)).
    destruct (key_map_last (fun r => map_key (Products.name r) (Products.product_id r))
                Products.product_id _ _ Hp) as (p' & Hp' & Hk & Hl).
    unfold build_product_map. rewrite Hl. f_equal.
    unfold ids_nonneg in Hps. rewrite Forall_forall in Hps.
    apply map_key_inj in Hk; [tauto|apply Hps; assumption..]. }
  split; [exact Lc|]. split; [exact Lp|].
  intros order today Ec Ep.
  assert (Hfind : is_Some (find_product (conn self') (Products.product_id p))).
  { unfold self'. rewrite refresh_sales_conn. unfold find_product.
    destruct (find _ (products (conn self))) eqn:E; [eauto|].
    exfalso. apply list_elem_of_In in Hp.
    apply (find_none _ _ E) in Hp. rewrite Z.eqb_refl in Hp. discriminate. }
  destruct Hfind as [prod Hfind].
  unfold add_sale. rewrite Ec, Ep, Lc, Lp, Hfind.
  destruct (read_qty order); [|split; discriminate].
  destruct (read_delivery order); [|split; discriminate].
  destruct (generate_invoice_no _ _ _); [|split; discriminate].
  destruct (insert_sale _ _); [|split; discriminate].
  destruct (refresh_sales order _). split; discriminate.
Qed.

Lemma listed_rows_can_be_sold_witness :
  client_map (fst (refresh_sales blank_form (with_conn shop_app shop)))
    !! "Amine (1)" = Some 1
  /\ product_map (fst (refresh_sales blank_form (with_conn shop_app shop)))
       !! "Teapot (2)" = Some 2.
Proof.
  destruct (listed_rows_can_be_sold blank_form (with_conn shop_app shop)
              (nth 0 (clients shop) (Clients.mk 0 "" "" "" "" 0%Q 0))
              (nth 1 (products shop) (Products.mk 0 "" 0%Q None None None 0)))
    as (Hc & Hp & _).
  - vm_compute. repeat constructor; discriminate.
  - vm_compute. repeat constructor; discriminate.
  - vm_compute. left.
  - vm_compute. right. left.
  - split; [exact Hc | exact Hp].
Defined.

Lemma next_id_pos {A : Type} (key : A -> Z) (rows : list A) (sequence : Z) :
  0 < next_id key rows sequence.
Proof.
  unfold next_id.
  assert (0 <= foldr (fun r m => Z.max (key r) m) 0 rows); [|lia].
  induction rows as [|x rows IH]; simpl; lia.
Qed.

(** X17. A client just added cannot be sold to before the sales list is
    refreshed.  [add_client] writes the row but leaves the combo box of the
    sales tab as it was: when that box was up to date, a sale to the new
    client's entry is refused with "Select valid client and product" and
    nothing changes; after [refresh_sales] the entry is there and leads to
    the new id. *)
Theorem new_client_needs_refresh (cf : ClientForm) (s : Session)
    (order : Form) (today : string) :
  fresh_maps (app s) ->
  ids_nonneg Clients.client_id (clients (conn (app s))) ->
  Py.strip (c_name cf) <> "" ->
  let s' := fst (add_client cf s) in
  let new_id := next_id Clients.client_id (clients (conn (app s))) (clients_sequence s) in
  sale_client order = map_key (Py.strip (c_name cf)) new_id ->
  snd (add_client cf s) = [showinfo "OK" "Client added."]
  /\ add_sale order today (app s')
     = (app s', [showerror "Validation" "Select valid client and product"])
  /\ client_map (fst (refresh_sales order (app s')))
       !! map_key (Py.strip (c_name cf)) new_id = Some new_id.
Proof.
  intros [Hfc _] Hids Hname s' new_id Hkey.
  assert (Hid : 0 <= new_id) by (apply Z.lt_le_incl, next_id_pos).
  assert (Hs' : client_map (app s') = client_map (app s)
                /\ clients (conn (app s'))
                   = clients (conn (app s))
                     ++ [Clients.mk new_id (Py.strip (c_name cf)) (Py.strip (c_phone cf))
                           (Py.strip (c_address cf)) (Py.strip (c_city cf)) 0 0]
                /\ snd (add_client cf s) = [showinfo "OK" "Client added."]).
  { unfold s', add_client. destruct (Py.strip (c_name cf)); [contradiction|].
    repeat split. }
  destruct Hs' as (Hmap & Hrows & Hshown).
  split; [exact Hshown|]. split.
  - assert (Hnone : client_map (app s') !! sale_client order = None).
    { rewrite Hmap, Hfc, Hkey.
      destruct (build_client_map _ !! _) as [v|] eqn:E; [|reflexivity].
      apply build_client_map_lookup in E as (c & Hc & _ & Hk).
      unfold ids_nonneg in Hids. rewrite Forall_forall in Hids.
      apply map_key_inj in Hk as [Hk _];
        [|apply Hids; assumption|exact Hid].
      pose proof (next_id_fresh Clients.client_id _ (clients_sequence s) _ Hc).
      fold new_id in H. lia. }
    unfold add_sale. rewrite Hnone. reflexivity.
  - rewrite (proj1 (refresh_sales_maps order (app s'))), Hrows.
    unfold build_client_map. rewrite foldl_app. simpl.
    apply lookup_insert_eq.
Qed.

Lemma new_client_needs_refresh_witness :
  snd (add_sale (order "Lina (3)" "Teapot (2)" "1" "" "") "2024-05-01"
         (app (fst (add_client form_lina shop_session))))
  = [showerror "Validation" "Select valid client and product"]
  /\ client_map (fst (refresh_sales (order "Lina (3)" "Teapot (2)" "1" "" "")
                        (app (fst (add_client form_lina shop_session)))))
       !! "Lina (3)" = Some 3.
Proof.
  destruct (new_client_needs_refresh form_lina shop_session
              (order "Lina (3)" "Teapot (2)" "1" "" "") "2024-05-01")
    as (_ & Hsale & Hmap).
  - split; vm_compute; reflexivity.
  - vm_compute. repeat constructor; discriminate.
  - vm_compute. discriminate.
  - vm_compute. reflexivity.
  - split; [rewrite Hsale; reflexivity | exact Hmap].
Defined.

End Keys.

(** ** The search box *)

Section Search.

Lemma like_any_unfold (p t : string) :
  Sqlite.like (String "%" p) t
  = Sqlite.like p t
    || match t with
       | String _ t' => Sqlite.like (String "%" p) t'
       | EmptyString => false
       end.
Proof. destruct t; reflexivity. Qed.

Lemma like_any_skip (p a t : string) :
  Sqlite.like (String "%" p) t = true ->
  Sqlite.like (String "%" p) (a +:+ t) = true.
Proof.
  intros H. induction a as [|c a IH]; [exact H|].
  change (String c a +:+ t) with (String c (a +:+ t)).
  rewrite like_any_unfold, IH. apply orb_true_r.
Qed.

Lemma like_ci_prefix (s s' p b : string) :
  same_ci s s' = true -> Sqlite.like p b = true ->
  Sqlite.like (s +:+ p) (s' +:+ b) = true.
Proof.
  revert s'. induction s as [|c s IH]; intros [|c' s'] Hs Hp;
    try discriminate Hs; [exact Hp|].
  simpl in Hs. apply andb_true_iff in Hs as [Hc Hs].
  specialize (IH s' Hs Hp).
  change (String c s +:+ p) with (String c (s +:+ p)).
  change (String c' s' +:+ b) with (String c' (s' +:+ b)).
  destruct (Ascii.eqb_spec c "%") as [->|Hne].
  - rewrite like_any_unfold. rewrite (like_any_unfold _ (s' +:+ b)), IH.
    apply orb_true_r.
  - simpl. destruct (Ascii.eqb_spec c "%"); [contradiction|].
    rewrite Hc, IH, orb_true_r. reflexivity.
Qed.

(** A text holding the words searched, in any case, matches the pattern
    that [refresh_sales] builds from them. *)
Lemma like_contains (s found a b : string) :
  same_ci s found = true ->
  Sqlite.like ("%" +:+ s +:+ "%") (a +:+ found +:+ b) = true.
Proof.
  intros Hs. change ("%" +:+ s +:+ "%") with (String "%" (s +:+ "%")).
  apply like_any_skip. rewrite like_any_unfold.
  rewrite (like_ci_prefix s found "%" b Hs (like_percent b)). reflexivity.
Qed.

Lemma or3_true_l (x : option bool) : Sqlite.or3 (Some true) x = Some true.
Proof. reflexivity. Qed.

Lemma or3_true_r (x : option bool) : Sqlite.or3 x (Some true) = Some true.
Proof. now destruct x as [[|]|]. Qed.

Lemma search_matches_found (sparam : string) (j : Joined) :
  Sqlite.like3 (client_name j) sparam = Some true
  \/ Sqlite.like3 (product_name j) sparam = Some true
  \/ Sqlite.like sparam (Sales.invoice_no (sale j)) = true
  \/ Sqlite.like sparam (Sales.status (sale j)) = true ->
  search_matches sparam j = Some true.
Proof.
  unfold search_matches.
  change (Sqlite.like3 (Some (Sales.invoice_no (sale j))) sparam)
    with (Some (Sqlite.like sparam (Sales.invoice_no (sale j)))).
  change (Sqlite.like3 (Some (Sales.status (sale j))) sparam)
    with (Some (Sqlite.like sparam (Sales.status (sale j)))).
  intros [-> | [-> | [-> | ->]]];
    repeat (rewrite or3_true_l || rewrite or3_true_r); reflexivity.
Qed.

(** X18. The search box finds what it should.  With the two date filters
    blank, [refresh_sales] lists every sale whose client name, product
    name, invoice number or status contains the text searched, whatever
    the case of its letters A-Z, and whatever the other three columns
    hold, NULL included. *)
Theorem search_finds (form : Form) (self : App) (row : Sales.row)
    (a found b : string) :
  Py.strip (date_from form) = "" -> Py.strip (date_to form) = "" ->
  row ∈ sales (conn self) ->
  same_ci (Py.strip (search_var form)) found = true ->
  let j := join (conn self) row in
  client_name j = Some (a +:+ found +:+ b)
  \/ product_name j = Some (a +:+ found +:+ b)
  \/ Sales.invoice_no row = a +:+ found +:+ b
  \/ Sales.status row = a +:+ found +:+ b ->
  snd (refresh_sales form self) = []
  /\ tree_values j ∈ sales_tree (fst (refresh_sales form self)).
Proof.
  intros Hdf Hdt Hrow Hs j Hfound.
  unfold refresh_sales. rewrite Hdf, Hdt. simpl. split; [reflexivity|].
  apply list_elem_of_fmap. exists j. split; [reflexivity|].
  apply select_sales_elem. exists row. split; [exact Hrow|].
  split; [reflexivity|].
  unfold where_clause. rewrite !andb_true_r.
  destruct (Py.strip (search_var form)) as [|c s] eqn:E; [reflexivity|].
  pose proof (like_contains (String c s) found a b Hs) as Hlike.
  rewrite search_matches_found; [reflexivity|].
  destruct Hfound as [H|[H|[H|H]]].
  - left. rewrite H. apply (f_equal Some Hlike).
  - right. left. rewrite H. apply (f_equal Some Hlike).
  - right. right. left.
    change (Sales.invoice_no (sale j)) with (Sales.invoice_no row).
    rewrite H. exact Hlike.
  - right. right. right.
    change (Sales.status (sale j)) with (Sales.status row).
    rewrite H. exact Hlike.
Qed.

Lemma search_finds_witness :
  map t_invoice_no
    (sales_tree (fst (refresh_sales (filter_form " TEA " "" "") january)))
  = ["DZAIR-2024-001"].
Proof.
  destruct (search_finds (filter_form " TEA " "" "") january
              (nth 1 (sales (conn january))
                 (Sales.mk 0 "" 0 0 0 0%Q 0%Q 0%Q 0%Q 0%Q 0%Q 0%Q "" "" 0 ""))
              "" "Tea" "pot") as [_ H].
  - reflexivity.
  - reflexivity.
  - vm_compute. right. left.
  - vm_compute. reflexivity.
  - right. left. vm_compute. reflexivity.
  - vm_compute. reflexivity.
Defined.

End Search.

(** ** Adding clients, products and fees *)

Section Adding.

Lemma order_by_desc_snoc {A : Type} (key : A -> Z) (l : list A) (r : A) :
  (forall x, x ∈ l -> key x < key r) ->
  order_by_desc key (l ++ [r]) = r :: order_by_desc key l.
Proof.
  unfold order_by_desc. induction l as [|x l IH]; intros H; [reflexivity|].
  simpl. rewrite IH by (intros y Hy; apply H; now right).
  simpl. destruct (Z.ltb_spec (key r) (key x)) as [Hlt|_]; [|reflexivity].
  specialize (H x ltac:(left)). lia.
Qed.

(** X19. The row just added is the first line of its list.  When
    [add_client], [add_product] or [add_fee] reports success, the table has
    one row more, at its end, with an id above every id of the table, and
    the list on screen starts with that row, followed by the rows of the
    table before, greatest id first. *)
Theorem added_row_heads_its_list (s : Session) :
  (forall form,
     snd (add_client form s) = [showinfo "OK" "Client added."] ->
     exists row,
       clients (conn (app (fst (add_client form s))))
       = clients (conn (app s)) ++ [row]
       /\ (forall c, c ∈ clients (conn (app s)) ->
                     Clients.client_id c < Clients.client_id row)
       /\ clients_tree (fst (add_client form s))
          = row :: order_by_desc Clients.client_id (clients (conn (app s))))
  /\ (forall form,
        snd (add_product form s) = [showinfo "OK" "Product added."] ->
        exists row,
          products (conn (app (fst (add_product form s))))
          = products (conn (app s)) ++ [row]
          /\ (forall p, p ∈ products (conn (app s)) ->
                        Products.product_id p < Products.product_id row)
          /\ products_tree (fst (add_product form s))
             = row :: order_by_desc Products.product_id (products (conn (app s))))
  /\ (forall form today,
        snd (add_fee form today s) = [showinfo "OK" "Fee added"] ->
        exists row,
          fees (fst (add_fee form today s)) = fees s ++ [row]
          /\ (forall f, f ∈ fees s -> Fees.fee_id f < Fees.fee_id row)
          /\ fees_tree (fst (add_fee form today s))
             = row :: order_by_desc Fees.fee_id (fees s)).
Proof.
  split; [|split].
  - intros form. unfold add_client.
    destruct (Py.strip (c_name form)) as [|ch name]; [discriminate|].
    intros _. eexists. split; [reflexivity|].
    assert (Hnew : forall c, c ∈ clients (conn (app s)) ->
                     Clients.client_id c
                     < next_id Clients.client_id (clients (conn (app s)))
                         (clients_sequence s))
      by (intros c Hc; now apply next_id_fresh).
    split; [exact Hnew|].
    cbn [fst refresh_clients clients_tree app conn with_conn clients].
    now apply order_by_desc_snoc.
  - intros form. unfold add_product.
    destruct (read_product form) as [[[[[purchase selling] weight] del] stock]|];
      [|discriminate].
    destruct (Py.strip (p_name form)) as [|ch name]; [discriminate|].
    destruct (Sqlite.fits_int64 stock); [|discriminate].
    intros _. eexists. split; [reflexivity|].
    assert (Hnew : forall p, p ∈ products (conn (app s)) ->
                     Products.product_id p
                     < next_id Products.product_id (products (conn (app s)))
                         (products_sequence s))
      by (intros p Hp; now apply next_id_fresh).
    split; [exact Hnew|].
    cbn [fst negb refresh_products products_tree app conn with_conn products].
    now apply order_by_desc_snoc.
  - intros form today. unfold add_fee.
    destruct (Py.strip (f_name form)) as [|ch name]; [discriminate|].
    destruct (Py.float (f_amount form)) as [amt|]; [|discriminate].
    intros _. eexists. split; [reflexivity|].
    assert (Hnew : forall f, f ∈ fees s ->
                     Fees.fee_id f < next_id Fees.fee_id (fees s) (fees_sequence s))
      by (intros f Hf; now apply next_id_fresh).
    split; [exact Hnew|].
    cbn [fst refresh_fees fees_tree fees].
    now apply order_by_desc_snoc.
Qed.

Lemma added_row_heads_its_list_witness :
  exists row,
    clients_tree (fst (add_client form_lina shop_session))
    = row :: order_by_desc Clients.client_id (clients (conn (app shop_session))).
Proof.
  destruct (proj1 (added_row_heads_its_list shop_session) form_lina)
    as (row & _ & _ & Htree).
  - vm_compute. reflexivity.
  - exists row. exact Htree.
Defined.





End Adding.

(** ** The chart of the dashboard *)

Section Chart.

Lemma ascii_compare_refl (c : ascii) : Ascii.compare c c = Eq.
Proof. unfold Ascii.compare. apply N.compare_refl. Qed.

Lemma ascii_compare_lt_trans (a b c : ascii) :
  Ascii.compare a b = Lt -> Ascii.compare b c = Lt -> Ascii.compare a c = Lt.
Proof.
  unfold Ascii.compare. rewrite !N.compare_lt_iff. apply N.lt_trans.
Qed.

Lemma string_compare_refl (s : string) : String.compare s s = Eq.
Proof.
  induction s as [|c s IH]; [reflexivity|].
  simpl. now rewrite ascii_compare_refl.
Qed.

Lemma string_compare_lt_trans (a b c : string) :
  String.compare a b = Lt -> String.compare b c = Lt -> String.compare a c = Lt.
Proof.
  revert b c. induction a as [|x a IH]; intros [|y b] [|z c]; simpl;
    try discriminate; try reflexivity.
  destruct (Ascii.compare x y) eqn:Exy; try discriminate;
    destruct (Ascii.compare y z) eqn:Eyz; try discriminate; intros Hab Hbc.
  - apply Ascii.compare_eq_iff in Exy as ->. rewrite Eyz. eauto.
  - apply Ascii.compare_eq_iff in Exy as ->. now rewrite Eyz.
  - apply Ascii.compare_eq_iff in Eyz as <-. now rewrite Exy.
  - now rewrite (ascii_compare_lt_trans _ _ _ Exy Eyz).
Qed.

Lemma string_compare_lt_neq (a b : string) :
  String.compare a b = Lt -> String.eqb a b = false.
Proof.
  intros H. destruct (String.eqb_spec a b) as [->|]; [|reflexivity].
  rewrite string_compare_refl in H. discriminate.
Qed.

Lemma string_compare_gt_neq (a b : string) :
  String.compare a b = Gt -> String.eqb b a = false.
Proof.
  intros H. destruct (String.eqb_spec b a) as [->|]; [|reflexivity].
  rewrite string_compare_refl in H. discriminate.
Qed.

Lemma day_entry_cons (d' d0 : string) (p0 : Q) (n0 : Z) (rest : list (string * Q * Z)) :
  day_entry d' ((d0, p0, n0) :: rest)
  = if String.eqb d0 d' then Some (p0, n0) else day_entry d' rest.
Proof. unfold day_entry. simpl. now destruct (String.eqb d0 d'). Qed.

Lemma day_entry_later (d : string) (days : list (string * Q * Z)) :
  Forall (fun e => String.compare d (fst (fst e)) = Lt) days ->
  day_entry d days = None.
Proof.
  induction 1 as [|[[d0 p0] n0] days Hd Hdays IH]; [reflexivity|].
  rewrite day_entry_cons. simpl in Hd.
  destruct (String.eqb_spec d0 d) as [->|]; [|exact IH].
  rewrite string_compare_refl in Hd. discriminate.
Qed.

Lemma before_later (d d0 : string) (p0 : Q) (n0 : Z) (days : list (string * Q * Z)) :
  String.compare d d0 = Lt -> Forall (before (d0, p0, n0)) days ->
  Forall (fun e => String.compare d (fst (fst e)) = Lt) days.
Proof.
  intros Hlt Hdays. eapply Forall_impl; [exact Hdays|].
  intros e He. unfold before in He. simpl in He.
  eapply string_compare_lt_trans; eassumption.
Qed.

Lemma add_to_day_entry (d : string) (p : Q) (days : list (string * Q * Z)) (d' : string) :
  StronglySorted before days ->
  day_entry d' (add_to_day d p days)
  = if String.eqb d d'
    then Some (match day_entry d days with
               | Some (p0, n0) => ((p0 + p)%Q, n0 + 1)
               | None => (p, 1)
               end)
    else day_entry d' days.
Proof.
  induction 1 as [|[[d0 p0] n0] days Hsorted IH Hd0].
  - simpl. rewrite day_entry_cons. reflexivity.
  - simpl. destruct (String.compare d d0) eqn:E.
    + apply String.compare_eq_iff in E as ->.
      rewrite !day_entry_cons, String.eqb_refl.
      now destruct (String.eqb d0 d').
    + rewrite !day_entry_cons.
      rewrite <- (day_entry_cons d d0 p0 n0 days).
      rewrite <- (day_entry_cons d' d0 p0 n0 days).
      rewrite (day_entry_later d ((d0, p0, n0) :: days)); [reflexivity|].
      constructor; [exact E|]. eapply before_later; eassumption.
    + rewrite !day_entry_cons, IH, (string_compare_gt_neq _ _ E).
      destruct (String.eqb_spec d d') as [->|]; [|reflexivity].
      now rewrite (string_compare_gt_neq _ _ E).
Qed.

Lemma add_to_day_above (x : string * Q * Z) (d : string) (p : Q)
    (days : list (string * Q * Z)) :
  String.compare (fst (fst x)) d = Lt -> Forall (before x) days ->
  Forall (before x) (add_to_day d p days).
Proof.
  intros Hx. induction 1 as [|[[d0 p0] n0] days Hd Hdays IH]; simpl.
  - constructor; [exact Hx | constructor].
  - destruct (String.compare d d0); repeat constructor; auto.
Qed.

Lemma add_to_day_sorted (d : string) (p : Q) (days : list (string * Q * Z)) :
  StronglySorted before days -> StronglySorted before (add_to_day d p days).
Proof.
  induction 1 as [|[[d0 p0] n0] days Hsorted IH Hd0]; simpl.
  - repeat constructor.
  - destruct (String.compare d d0) eqn:E.
    + constructor; [exact Hsorted|]. exact Hd0.
    + constructor; [constructor; assumption|].
      constructor; [exact E|].
      eapply Forall_impl; [exact (before_later _ _ _ _ _ E Hd0)|]. auto.
    + constructor; [exact IH|]. apply add_to_day_above; [|exact Hd0].
      simpl. rewrite String.compare_antisym, E. reflexivity.
Qed.

Lemma day_total_snoc (d : string) (rs : list Sales.row) (r : Sales.row) :
  day_total (rs ++ [r])
  = Some (match day_total rs with
          | Some (p0, n0) => ((p0 + Sales.p_fayda r)%Q, n0 + 1)
          | None => (Sales.p_fayda r, 1)
          end).
Proof.
  unfold day_total. rewrite length_app, Nat2Z.inj_add.
  destruct rs as [|r0 rs]; [reflexivity|].
  change (Sqlite.sum (map Sales.p_fayda ((r0 :: rs) ++ [r])))
    with (Some (fold_left Qplus (map Sales.p_fayda (rs ++ [r])) (Sales.p_fayda r0))).
  change (Sqlite.sum (map Sales.p_fayda (r0 :: rs)))
    with (Some (fold_left Qplus (map Sales.p_fayda rs) (Sales.p_fayda r0))).
  rewrite map_app, fold_left_app. reflexivity.
Qed.

Lemma sales_on_snoc (d : string) (rs : list Sales.row) (r : Sales.row) :
  sales_on d (rs ++ [r])
  = if String.eqb (Sales.date r) d then sales_on d rs ++ [r] else sales_on d rs.
Proof.
  unfold sales_on. rewrite List.filter_app. simpl.
  destruct (String.eqb (Sales.date r) d); [reflexivity | apply app_nil_r].
Qed.

(** What the fold of the query holds after any list of sales. *)
Lemma fold_days (rows : list Sales.row) :
  let days :=
    fold_left (fun days r => add_to_day (Sales.date r) (Sales.p_fayda r) days)
      rows [] in
  StronglySorted before days
  /\ forall d, day_entry d days = day_total (sales_on d rows).
Proof.
  induction rows as [|r rows IH] using rev_ind; simpl.
  - split; [constructor | reflexivity].
  - rewrite fold_left_app. simpl. destruct IH as [Hsorted Hentry].
    split; [now apply add_to_day_sorted|].
    intros d. rewrite add_to_day_entry by exact Hsorted.
    rewrite sales_on_snoc.
    destruct (String.eqb_spec (Sales.date r) d) as [<-|]; [|apply Hentry].
    rewrite (day_total_snoc (Sales.date r)), Hentry. reflexivity.
Qed.

Lemma day_entry_elem (d : string) (p : Q) (n : Z) (days : list (string * Q * Z)) :
  StronglySorted before days ->
  (d, p, n) ∈ days <-> day_entry d days = Some (p, n).
Proof.
  induction 1 as [|[[d0 p0] n0] days Hsorted IH Hd0].
  - split; [intros H; now apply elem_of_nil in H | discriminate].
  - rewrite day_entry_cons, elem_of_cons, IH.
    destruct (String.eqb_spec d0 d) as [->|Hne].
    + split.
      * intros [[= -> ->]|H]; [reflexivity|].
        rewrite day_entry_later in H; [discriminate|].
        eapply Forall_impl; [exact Hd0|]. auto.
      * intros [= -> ->]. now left.
    + split; [intros [[= E]|H]; [congruence | exact H] | now right].
Qed.

(** X22. The chart of the dashboard.  The query behind it gives one point
    for each day, from [since] on, on which something was sold, and no
    point for any other day; the points come in strictly ascending order
    of date; and the point of a day carries the [SUM] of the [p_fayda] of
    the sales of that day and their number. *)
Theorem chart_groups_sales_by_day (since : string) (rows : list Sales.row) :
  StronglySorted before (profit_by_day since rows)
  /\ forall d p n,
       (d, p, n) ∈ profit_by_day since rows
       <-> day_total (sales_on d (List.filter (in_window since) rows)) = Some (p, n).
Proof.
  unfold profit_by_day.
  destruct (fold_days (List.filter (in_window since) rows)) as [Hsorted Hentry].
  split; [exact Hsorted|]. intros d p n.
  rewrite (day_entry_elem _ _ _ _ Hsorted), Hentry. reflexivity.
Qed.

(** The sales of a day that the chart counts are those of the table made
    that day, when the day is in the window. *)
Lemma sales_on_window (since d : string) (rows : list Sales.row) :
  String.leb since d = true ->
  sales_on d (List.filter (in_window since) rows) = sales_on d rows.
Proof.
  intros Hd. unfold sales_on. induction rows as [|r rows IH]; [reflexivity|].
  simpl. unfold in_window at 1.
  destruct (String.eqb_spec (Sales.date r) d) as [E|E].
  - rewrite E, Hd. simpl. rewrite E, String.eqb_refl. now f_equal.
  - destruct (String.leb since (Sales.date r)); simpl;
      [destruct (String.eqb_spec (Sales.date r) d); [contradiction|]|]; exact IH.
Qed.

End Chart.

(** ** The toolbar *)

Section Toolbar.


End Toolbar.
